(** * Order controller and WhatsApp/SMS notification service

    A shallow embedding of [controllers/orderController.js] and of the
    two send paths of [controllers/whatsappController.js], with the
    properties of the order workflow stated over it.

    Conventions of the embedding.
    - A JSON scalar of a request body is a [jsval]; a number is an
      IEEE-754 binary64 value ([float]), and [+], [*] and [===] on
      numbers are the rounded operations and the comparison of that
      format, as in JavaScript. Times ([Date.now()]) and HTTP status
      codes are integers ([Z]).
    - A string is a [string] of bytes; the only character class the code
      inspects is the ASCII digits.
    - The external collaborators (payment gateway, document store, chat
      transport, SMS gateway, clock, HMAC primitive) are the fields of an
      environment record [env]; each may depend on the history so far.
    - An [async] function is a computation [M A]: from a [world] it
      returns a value, raises, or never settles, together with the new
      world. *)

From Stdlib Require Import ZArith Lia Bool List Ascii String DecimalString Floats.
From stdpp Require Import base option gmap strings.

Local Open Scope Z_scope.
Local Open Scope string_scope.
Local Open Scope list_scope.

(** ** Phone numbers ([whatsappController.js]) *)

Module Phone.

(** [\d] of a JavaScript regular expression: the ASCII digits. *)
Definition is_digit (c : ascii) : bool :=
  let n := nat_of_ascii c in (Nat.leb 48 n) && (Nat.leb n 57).

(** [phoneNumber.replace(/\D/g, '')] *)
Fixpoint strip_non_digits (s : string) : string :=
  match s with
  | EmptyString => EmptyString
  | String c r =>
      if is_digit c then String c (strip_non_digits r) else strip_non_digits r
  end.

(** [s.startsWith(p)] *)
Fixpoint startsWith (s p : string) {struct p} : bool :=
  match p, s with
  | EmptyString, _ => true
  | String a p', String b s' => if Ascii.eqb a b then startsWith s' p' else false
  | String _ _, EmptyString => false
  end.

(** [s.substring(n)] for a natural [n] *)
Fixpoint substring_from (n : nat) (s : string) : string :=
  match n, s with
  | O, _ => s
  | S n', String _ r => substring_from n' r
  | S _, EmptyString => EmptyString
  end.

(** The number [sendMessage] messages (lines 222-233): [finalNumber]. *)
Definition whatsapp_number (phoneNumber : string) : string :=
  let cleanNumber := strip_non_digits phoneNumber in
  if startsWith cleanNumber "91" then cleanNumber
  else if startsWith cleanNumber "0" then "91" +:+ substring_from 1 cleanNumber
  else "91" +:+ cleanNumber.

(** The number [sendTextSMS] computes (lines 179-184): [finalNumber];
    the number dialled is [recipientNumber], with a leading [+]. *)
Definition sms_number (phoneNumber : string) : string :=
  let cleanNumber := strip_non_digits phoneNumber in
  let finalNumber := cleanNumber in
  if negb (startsWith finalNumber "91") && negb (startsWith finalNumber "+")
  then "91" +:+ finalNumber
  else finalNumber.

Definition sms_recipient (phoneNumber : string) : string :=
  "+" +:+ sms_number phoneNumber.

(** [chatId] of [sendMessage] *)
Definition chat_id (finalNumber : string) : string := finalNumber +:+ "@c.us".

(** A string of digits only. *)
Fixpoint all_digits (s : string) : bool :=
  match s with
  | EmptyString => true
  | String c r => is_digit c && all_digits r
  end.

End Phone.

(** ** JavaScript values of a request body *)

Module Js.

Inductive jsval :=
  | JUndefined
  | JNull
  | JBool (b : bool)
  | JNum (n : float)
  | JStr (s : string).

(** ToBoolean: what [!v] negates. A number is falsy when it is [+0],
    [-0] or [NaN]. *)
Definition truthy (v : jsval) : bool :=
  match v with
  | JUndefined | JNull => false
  | JBool b => b
  | JNum n => negb (PrimFloat.is_zero n || PrimFloat.is_nan n)
  | JStr s => negb (String.eqb s EmptyString)
  end.

(** [typeof v === 'string'] *)
Definition is_string (v : jsval) : bool :=
  match v with JStr _ => true | _ => false end.

(** [a === b]. On numbers it is the comparison of the format: [NaN] is
    not equal to itself and [+0] is equal to [-0]. *)
Definition strict_eq (a b : jsval) : bool :=
  match a, b with
  | JUndefined, JUndefined | JNull, JNull => true
  | JBool x, JBool y => Bool.eqb x y
  | JNum x, JNum y => PrimFloat.eqb x y
  | JStr x, JStr y => String.eqb x y
  | _, _ => false
  end.

(** [o[field]] on an object: [undefined] when the key is absent. *)
Definition get (o : gmap string jsval) (field : string) : jsval :=
  default JUndefined (o !! field).

(** [`${n}`] for an integer. *)
Definition decimal (n : Z) : string := NilZero.string_of_int (Z.to_int n).

End Js.
Export Js.

(** ** The data of [orderController.js] *)

(** An element of [items]. [quantity] is absent, [null] or a number. *)
Inductive quantity_field :=
  | QtyAbsent
  | QtyNull
  | QtyNum (q : float).

Record item := { name : string; price : float; quantity : quantity_field }.

(** [req.body]: the fields the three handlers destructure. [items] is an
    array when present, [address] an object when present, and the three
    gateway fields are strings when present. *)
Module Body.
Record t := {
  items : option (list item);
  address : option (gmap string jsval);
  paymentMethod : jsval;
  total : jsval;
  paymentId : jsval;
  status : jsval;
  razorpay_order_id : option string;
  razorpay_payment_id : option string;
  razorpay_signature : option string
}.
End Body.

(** [orderData], the object the handlers build, and [orderToSave], the
    document [saveOrderToDatabase] inserts. *)
Module OrderData.
Record t := {
  items : list item;
  address : gmap string jsval;
  paymentMethod : jsval;
  total : jsval;
  paymentId : jsval;
  razorpayOrderId : option string;
  status : jsval
}.
End OrderData.

Record order_record := { orderData : OrderData.t; createdAt : Z }.

(** The text of a notification is a template applied to its arguments;
    a message is kept as the template and the arguments. *)
Inductive message :=
  | AdminMessage (address : gmap string jsval) (items : list item)
      (total paymentMethod paymentId : jsval)
  | CustomerMessage (address : gmap string jsval) (total paymentMethod : jsval).

Definition generateAdminMessage address items total paymentMethod paymentId :=
  AdminMessage address items total paymentMethod paymentId.

Definition generateCustomerMessage address total paymentMethod :=
  CustomerMessage address total paymentMethod.

(** What [sendMessage] and [sendTextSMS] resolve to. *)
Record send_result := {
  success : bool;
  messageId : option string;
  error : option string;
  phoneNumber : option jsval;
  provider : option string
}.

(** What a handler passes to [res.status(..).json(..)]. *)
Inductive json_body :=
  | JsonError (error : string)
  | JsonIntent (orderId : string) (amount : float) (currency : string)
  | JsonSaved (msg orderId : string) (whatsappNotifications : list (string * string)).

Record response := { http_status : Z; json : json_body }.

(** ** Effects *)

(** Calls that leave the process, in the order they are made. *)
Inductive event :=
  | EvGatewayCreate (amount : float) (receipt : string)
  | EvSaveOrder (orderData : OrderData.t)
  | EvWhatsApp (phoneNumber : jsval) (m : message)
  | EvWhatsAppDeliver (chatId : string) (m : message)
  | EvSms (phoneNumber : jsval) (m : message)
  | EvTwilioCreate (recipientNumber : string) (m : message).

Record world := { orders : list order_record; trace : list event }.

(** How an awaited call settles. *)
Inductive reply (A : Type) :=
  | Returns (a : A)
  | Throws (msg : string)
  | Pending.
Arguments Returns {A} a.
Arguments Throws {A} msg.
Arguments Pending {A}.

Definition M (A : Type) : Type := world -> reply A * world.

Definition ret {A} (a : A) : M A := fun w => (Returns a, w).

Definition bind {A B} (c : M A) (k : A -> M B) : M B :=
  fun w =>
    match c w with
    | (Returns a, w') => k a w'
    | (Throws e, w') => (Throws e, w')
    | (Pending, w') => (Pending, w')
    end.

Definition raise {A} (msg : string) : M A := fun w => (Throws msg, w).

(** [try { c } catch (error) { h(error.message) }] *)
Definition try_catch {A} (c : M A) (h : string -> M A) : M A :=
  fun w =>
    match c w with
    | (Throws e, w') => h e w'
    | r => r
    end.

(** An awaited call to a collaborator, whose reply may depend on the history. *)
Definition call {A} (f : world -> reply A) : M A := fun w => (f w, w).

Definition read {A} (f : world -> A) : M A := fun w => (Returns (f w), w).

Definition emit (e : event) : M unit :=
  fun w => (Returns tt, {| orders := orders w; trace := trace w ++ [e] |}).

Definition store (r : order_record) : M unit :=
  fun w => (Returns tt, {| orders := orders w ++ [r]; trace := trace w |}).

Notation "'let*' x ':=' c 'in' k" := (bind c (fun x => k))
  (at level 10, x name, c at level 100, k at level 200).
Notation "c1 ';;' c2" := (bind c1 (fun _ => c2))
  (at level 100, c2 at level 200, right associativity).

(** The gateway's answer to [razorpay.orders.create]. *)
Record gateway_order := { id : string; order_amount : float; order_currency : string }.

(** The collaborators of the two controllers. *)
Record env := {
  (** [crypto.createHmac('sha256', key).update(data).digest('hex')] *)
  hmac_sha256_hex : string -> string -> string;
  (** [process.env.RAZORPAY_KEY_SECRET], set *)
  RAZORPAY_KEY_SECRET : string;
  (** [Date.now()], [new Date()] *)
  now : world -> Z;
  (** [razorpay.orders.create(options)] *)
  orders_create : float -> string -> world -> reply gateway_order;
  (** whether [db] of [config/db.js] is set *)
  db : world -> bool;
  (** [db.collection("orders").insertOne(orderToSave)]: the inserted id *)
  insertOne : order_record -> world -> reply string;
  (** [this.isReady], as the [k]-th read of it by a call of
      [waitForReady] finds it: the session events set it asynchronously *)
  isReady : nat -> world -> bool;
  (** how [this.initializationPromise] settles *)
  initializationPromise : world -> reply unit;
  (** whether [this.client] is set *)
  client : world -> bool;
  (** [this.client.isRegisteredUser(chatId)] *)
  isRegisteredUser : string -> world -> reply bool;
  (** [this.client.getChatById(chatId)] *)
  getChatById : string -> world -> reply bool;
  (** [this.client.sendMessage(chatId, message)]:
      [result?.id?.id || result?.id] when it is usable *)
  client_sendMessage : string -> message -> world -> reply (option string);
  (** [require('twilio')(accountSid, authToken)] *)
  twilio : world -> reply unit;
  (** [client.messages.create({body, from, to})]: [result.sid] *)
  messages_create : string -> message -> world -> reply string
}.

(** ** [whatsappController.js]: the two send paths *)

Section Service.

Variable E : env.

(** [error.message] of the [TypeError] of [phoneNumber.replace] on a
    value that is not a string, as V8 words it: [undefined] and [null]
    have no properties, another value has no [replace] method. *)
Definition replace_type_error (phoneNumber : jsval) : string :=
  match phoneNumber with
  | JUndefined => "Cannot read properties of undefined (reading 'replace')"
  | JNull => "Cannot read properties of null (reading 'replace')"
  | _ => "phoneNumber.replace is not a function"
  end.

(** The loop of [waitForReady]: [n] polls left, a second apart. *)
Fixpoint poll_ready (n k : nat) : M bool :=
  match n with
  | O => raise "WhatsApp client not ready after waiting"
  | S n' =>
      let* ready := read (isReady E k) in
      if ready then ret true else poll_ready n' (S k)
  end.

(** [WhatsAppService.waitForReady] (lines 156-168) *)
Definition waitForReady : M bool :=
  let* ready := read (isReady E 0) in
  if ready then ret true
  else
    call (initializationPromise E) ;;
    poll_ready 30 1.

(** [WhatsAppService.sendMessage] (lines 214-289) *)
Definition sendMessage (phoneNumber : jsval) (m : message) : M send_result :=
  emit (EvWhatsApp phoneNumber m) ;;
  try_catch
    (waitForReady ;;
     let* has_client := read (client E) in
     if negb has_client then raise "WhatsApp client not initialized"
     else
       match phoneNumber with
       | JStr p =>
           let finalNumber := Phone.whatsapp_number p in
           let chatId := Phone.chat_id finalNumber in
           let* numberExists := call (isRegisteredUser E chatId) in
           if negb numberExists then
             ret {| success := false;
                    messageId := None;
                    error := Some "Phone number not registered on WhatsApp";
                    phoneNumber := Some (JStr finalNumber);
                    provider := None |}
           else
             try_catch (call (getChatById E chatId) ;; ret tt) (fun _ => ret tt) ;;
             emit (EvWhatsAppDeliver chatId m) ;;
             let* result := call (client_sendMessage E chatId m) in
             let* t := read (now E) in
             ret {| success := true;
                    messageId :=
                      Some (match result with
                            | Some i => i
                            | None => "msg_" +:+ decimal t
                            end);
                    error := None;
                    phoneNumber := Some (JStr finalNumber);
                    provider := None |}
       | _ => raise (replace_type_error phoneNumber)
       end)
    (fun error_message =>
       ret {| success := false;
              messageId := None;
              error := Some error_message;
              phoneNumber := Some phoneNumber;
              provider := None |}).

(** [WhatsAppService.sendTextSMS] (lines 170-211). The Twilio client is
    built before the [try]. *)
Definition sendTextSMS (phoneNumber : jsval) (m : message) : M send_result :=
  emit (EvSms phoneNumber m) ;;
  call (twilio E) ;;
  try_catch
    (match phoneNumber with
     | JStr p =>
         let recipientNumber := Phone.sms_recipient p in
         emit (EvTwilioCreate recipientNumber m) ;;
         let* sid := call (messages_create E recipientNumber m) in
         ret {| success := true;
                messageId := Some sid;
                error := None;
                phoneNumber := None;
                provider := Some "Twilio" |}
     | _ => raise (replace_type_error phoneNumber)
     end)
    (fun error_message =>
       ret {| success := false;
              messageId := None;
              error := Some error_message;
              phoneNumber := None;
              provider := Some "Twilio" |}).

(** ** [orderController.js] *)

(** [getDb] of [config/db.js] *)
Definition getDb : M unit :=
  let* connected := read (db E) in
  if connected then ret tt else raise "Database not connected".

(** [saveOrderToDatabase] (lines 58-68): resolves to [result.insertedId]. *)
Definition saveOrderToDatabase (d : OrderData.t) : M string :=
  emit (EvSaveOrder d) ;;
  getDb ;;
  let* t := read (now E) in
  let orderToSave := {| orderData := d; createdAt := t |} in
  let* insertedId := call (insertOne E orderToSave) in
  store orderToSave ;;
  ret insertedId.

Definition sent_or_failed (r : send_result) : string :=
  if success r then "Sent" else "Failed".

(** [sendNotifications] (lines 73-87): the object it resolves to, as the
    list of its keys and values. *)
Definition sendNotifications (address : gmap string jsval) (items : list item)
    (total paymentMethod paymentId : jsval) : M (list (string * string)) :=
  let adminMessage := generateAdminMessage address items total paymentMethod paymentId in
  let customerMessage := generateCustomerMessage address total paymentMethod in
  let* adminResult := sendMessage (JStr "919301680755") adminMessage in
  let* customerResult := sendMessage (get address "phone") customerMessage in
  let* smsResult := sendTextSMS (get address "phone") customerMessage in
  ret [("admin", sent_or_failed adminResult);
       ("customer", sent_or_failed customerResult);
       ("sms", sent_or_failed smsResult)].

Definition respond (code : Z) (b : json_body) : M response :=
  ret {| http_status := code; json := b |}.

(** The double-quote character *)
Definition dquote : string := String (ascii_of_nat 34) EmptyString.

Definition requiredAddressFields : list string :=
  ["fullName"; "street"; "city"; "state"; "zipCode"; "email"; "phone"].

(** [!address[field] || typeof address[field] !== 'string'] *)
Definition bad_address_field (address : gmap string jsval) (field : string) : bool :=
  negb (truthy (get address field)) || negb (is_string (get address field)).

(** [item.quantity || 1] *)
Definition quantity_or_1 (q : quantity_field) : float :=
  match q with
  | QtyNum n => if truthy (JNum n) then n else 1
  | QtyAbsent | QtyNull => 1
  end.

(** [items.reduce((sum, item) => sum + (item.price * (item.quantity || 1)), 0)]:
    each product and each sum is rounded to a double, from left to right. *)
Definition calculatedTotal (items : list item) : float :=
  fold_left
    (fun sum item =>
       PrimFloat.add sum (PrimFloat.mul (price item) (quantity_or_1 (quantity item))))
    items 0%float.

(** [createOrder] (lines 92-159) *)
Definition createOrder (body : Body.t) : M response :=
  match Body.items body, Body.address body with
  | Some items, Some address =>
      let paymentMethod := Body.paymentMethod body in
      let total := Body.total body in
      if negb (truthy paymentMethod) || negb (truthy total) then
        respond 400 (JsonError "Missing required fields")
      else
        match find (bad_address_field address) requiredAddressFields with
        | Some field =>
            respond 400 (JsonError ("Address field " +:+ dquote +:+ field +:+ dquote
                                    +:+ " is required and must be a string"))
        | None =>
            match total with
            | JNum total_number =>
                if negb (strict_eq (JNum (calculatedTotal items)) total) then
                  respond 400 (JsonError "Total does not match the sum of item prices")
                else
                  try_catch
                    (if strict_eq paymentMethod (JStr "prepaid") then
                       let amount := PrimFloat.mul total_number 100 in
                       let* t := read (now E) in
                       let receipt := "receipt_" +:+ decimal t in
                       emit (EvGatewayCreate amount receipt) ;;
                       let* order := call (orders_create E amount receipt) in
                       respond 200 (JsonIntent (id order) (order_amount order)
                                               (order_currency order))
                     else if strict_eq paymentMethod (JStr "cod") then
                       let orderData :=
                         {| OrderData.items := items;
                            OrderData.address := address;
                            OrderData.paymentMethod := paymentMethod;
                            OrderData.total := total;
                            OrderData.paymentId := JNull;
                            OrderData.razorpayOrderId := None;
                            OrderData.status := JStr "confirmed" |} in
                       let* insertedId := saveOrderToDatabase orderData in
                       let* notifications :=
                         sendNotifications address items total paymentMethod JNull in
                       respond 200 (JsonSaved "COD Order placed successfully"
                                              insertedId notifications)
                     else respond 400 (JsonError "Invalid payment method"))
                    (fun error_message =>
                       respond 500 (JsonError ("Error creating order: " +:+ error_message)))
            | _ =>
                (* [calculatedTotal] is a number, and a value of another
                   type is [!==] a number *)
                respond 400 (JsonError "Total does not match the sum of item prices")
            end
        end
  | _, _ => respond 400 (JsonError "Missing required fields")
  end.

(** [!field] for a gateway field: absent or the empty string. *)
Definition given (field : option string) : option string :=
  match field with
  | Some s => if String.eqb s EmptyString then None else Some s
  | None => None
  end.

(** Lines 184-187: the signature the handler recomputes. *)
Definition generatedSignature (razorpay_order_id razorpay_payment_id : string) : string :=
  hmac_sha256_hex E (RAZORPAY_KEY_SECRET E)
    (razorpay_order_id +:+ "|" +:+ razorpay_payment_id).

(** Line 189: [generatedSignature === razorpay_signature] *)
Definition signature_matches
    (razorpay_order_id razorpay_payment_id razorpay_signature : string) : bool :=
  String.eqb (generatedSignature razorpay_order_id razorpay_payment_id) razorpay_signature.

(** [verifyPayment] (lines 164-219) *)
Definition verifyPayment (body : Body.t) : M response :=
  match given (Body.razorpay_order_id body),
        given (Body.razorpay_payment_id body),
        given (Body.razorpay_signature body) with
  | Some razorpay_order_id, Some razorpay_payment_id, Some razorpay_signature =>
      match Body.items body, Body.address body with
      | Some items, Some address =>
          let total := Body.total body in
          if negb (truthy total) then
            respond 400 (JsonError "Missing order details for saving")
          else
            try_catch
              (if signature_matches razorpay_order_id razorpay_payment_id
                    razorpay_signature then
                 let orderData :=
                   {| OrderData.items := items;
                      OrderData.address := address;
                      OrderData.paymentMethod := JStr "prepaid";
                      OrderData.total := total;
                      OrderData.paymentId := JStr razorpay_payment_id;
                      OrderData.razorpayOrderId := Some razorpay_order_id;
                      OrderData.status := JStr "confirmed" |} in
                 let* insertedId := saveOrderToDatabase orderData in
                 let* notifications :=
                   sendNotifications address items total (JStr "prepaid")
                     (JStr razorpay_payment_id) in
                 respond 200 (JsonSaved "Payment verified and order saved successfully"
                                        insertedId notifications)
               else respond 400 (JsonError "Invalid payment signature"))
              (fun error_message =>
                 respond 500 (JsonError ("Error verifying payment: " +:+ error_message)))
      | _, _ => respond 400 (JsonError "Missing order details for saving")
      end
  | _, _, _ => respond 400 (JsonError "Missing required fields for verification")
  end.

(** [saveOrder] (lines 224-260), the legacy endpoint *)
Definition saveOrder (body : Body.t) : M response :=
  match Body.items body, Body.address body with
  | Some items, Some address =>
      let paymentMethod := Body.paymentMethod body in
      let total := Body.total body in
      let paymentId := Body.paymentId body in
      let status := Body.status body in
      if negb (truthy paymentMethod) || negb (truthy total) || negb (truthy status) then
        respond 400 (JsonError "Missing required fields for saving order")
      else if negb (truthy (get address "phone")) || negb (is_string (get address "phone")) then
        respond 400 (JsonError "Phone number is required and must be a string")
      else
        try_catch
          (let orderData :=
             {| OrderData.items := items;
                OrderData.address := address;
                OrderData.paymentMethod := paymentMethod;
                OrderData.total := total;
                OrderData.paymentId :=
                  if strict_eq paymentMethod (JStr "prepaid") then paymentId else JNull;
                OrderData.razorpayOrderId := None;
                OrderData.status := status |} in
           let* insertedId := saveOrderToDatabase orderData in
           let* notifications :=
             sendNotifications address items total paymentMethod paymentId in
           respond 200 (JsonSaved "Order saved successfully" insertedId notifications))
          (fun _ => respond 500 (JsonError "Failed to save order to database"))
  | _, _ => respond 400 (JsonError "Missing required fields for saving order")
  end.

End Service.

(** ** Vocabulary of the properties *)

(** The three exported handlers. *)
Inductive operation := CreateOrder | VerifyPayment | SaveOrder.

Definition handle (E : env) (op : operation) : Body.t -> M response :=
  match op with
  | CreateOrder => createOrder E
  | VerifyPayment => verifyPayment E
  | SaveOrder => saveOrder E
  end.

(** The events of the notification services. *)
Definition is_notification (e : event) : bool :=
  match e with
  | EvWhatsApp _ _ | EvWhatsAppDeliver _ _ | EvSms _ _ | EvTwilioCreate _ _ => true
  | EvGatewayCreate _ _ | EvSaveOrder _ => false
  end.

(** A value that is neither [null] nor [undefined]. *)
Definition present (v : jsval) : bool :=
  match v with
  | JUndefined | JNull => false
  | _ => true
  end.

(** The sum of the specification, unit price times quantity over items
    that all carry a numeric quantity, added to [acc] in the order of the
    items in double arithmetic. *)
Fixpoint price_times_quantity_from (acc : float) (items : list item) : option float :=
  match items with
  | [] => Some acc
  | it :: rest =>
      match quantity it with
      | QtyNum q =>
          price_times_quantity_from (PrimFloat.add acc (PrimFloat.mul (price it) q)) rest
      | _ => None
      end
  end.

Definition price_times_quantity (items : list item) : option float :=
  price_times_quantity_from 0%float items.

(** The quantity an item is counted with: 1 when the field is absent,
    [null], 0 or not a number. *)
Definition counted_quantity (q : quantity_field) : float :=
  match q with
  | QtyAbsent => 1
  | QtyNull => 1
  | QtyNum n => if PrimFloat.is_zero n || PrimFloat.is_nan n then 1 else n
  end.

(** The counted sum: price times counted quantity, added to [acc] in the
    order of the items, each product and each sum rounded to a double. *)
Fixpoint counted_sum_from (acc : float) (items : list item) : float :=
  match items with
  | [] => acc
  | it :: rest =>
      counted_sum_from
        (PrimFloat.add acc (PrimFloat.mul (price it) (counted_quantity (quantity it))))
        rest
  end.

Definition counted_sum (items : list item) : float := counted_sum_from 0%float items.

(** The integer a double denotes, when it denotes one. *)
Definition integer_value (x : float) : option Z :=
  match Prim2SF x with
  | S754_zero _ => Some 0
  | S754_finite s m e =>
      let magnitude :=
        if Z.leb 0 e then Some (Z.pos m * 2 ^ e)
        else if Z.eqb (Z.pos m mod 2 ^ (- e)) 0 then Some (Z.pos m / 2 ^ (- e))
        else None in
      match magnitude with
      | Some n => Some (if s then - n else n)
      | None => None
      end
  | S754_infinity _ | S754_nan => None
  end.

(** The sum of price times counted quantity in exact integer arithmetic,
    for items whose prices and quantities are integers. *)
Fixpoint exact_counted_sum (items : list item) : option Z :=
  match items with
  | [] => Some 0
  | it :: rest =>
      match integer_value (price it),
            integer_value (counted_quantity (quantity it)),
            exact_counted_sum rest with
      | Some p, Some q, Some s => Some (p * q + s)
      | _, _, _ => None
      end
  end.

(** The two invariants of the data model, on a persisted document. *)
Definition paymentId_invariant (d : OrderData.t) : Prop :=
  present (OrderData.paymentId d) = true <->
  (OrderData.paymentMethod d = JStr "prepaid" /\ OrderData.status d = JStr "confirmed").

Definition total_invariant (d : OrderData.t) : Prop :=
  exists s, price_times_quantity (OrderData.items d) = Some s /\
            OrderData.total d = JNum s.

(** What each handler guarantees of a document it inserts. *)
Definition inserted_ok (op : operation) (r : order_record) : Prop :=
  let d := orderData r in
  match op with
  | CreateOrder =>
      paymentId_invariant d /\ OrderData.status d = JStr "confirmed" /\
      OrderData.total d = JNum (counted_sum (OrderData.items d))
  | VerifyPayment =>
      paymentId_invariant d /\ OrderData.status d = JStr "confirmed"
  | SaveOrder =>
      present (OrderData.paymentId d) = true -> OrderData.paymentMethod d = JStr "prepaid"
  end.

(** The requests [createOrder] refuses: a field is missing, a required
    address field is not a non-empty string, or the total differs from
    the counted sum. *)
Inductive refused : Body.t -> Prop :=
  | refused_items body : Body.items body = None -> refused body
  | refused_address body : Body.address body = None -> refused body
  | refused_paymentMethod body : truthy (Body.paymentMethod body) = false -> refused body
  | refused_total body : truthy (Body.total body) = false -> refused body
  | refused_field body address field :
      Body.address body = Some address ->
      In field requiredAddressFields ->
      (forall s, get address field = JStr s -> s = EmptyString) ->
      refused body
  | refused_sum body items :
      Body.items body = Some items ->
      Body.total body <> JNum (counted_sum items) ->
      refused body.

(** An address whose required fields are all non-empty strings. *)
Definition well_addressed (address : gmap string jsval) : Prop :=
  forall field, In field requiredAddressFields ->
    exists s, get address field = JStr s /\ s <> EmptyString.

(** Bit [k] of a character, and of character [i] of a string, inverted. *)
Definition flip_ascii (k : nat) (c : ascii) : ascii :=
  let '(Ascii b0 b1 b2 b3 b4 b5 b6 b7) := c in
  match k with
  | 0%nat => Ascii (negb b0) b1 b2 b3 b4 b5 b6 b7
  | 1%nat => Ascii b0 (negb b1) b2 b3 b4 b5 b6 b7
  | 2%nat => Ascii b0 b1 (negb b2) b3 b4 b5 b6 b7
  | 3%nat => Ascii b0 b1 b2 (negb b3) b4 b5 b6 b7
  | 4%nat => Ascii b0 b1 b2 b3 (negb b4) b5 b6 b7
  | 5%nat => Ascii b0 b1 b2 b3 b4 (negb b5) b6 b7
  | 6%nat => Ascii b0 b1 b2 b3 b4 b5 (negb b6) b7
  | 7%nat => Ascii b0 b1 b2 b3 b4 b5 b6 (negb b7)
  | _ => c
  end.

Fixpoint flip_bit (i k : nat) (s : string) : string :=
  match s, i with
  | EmptyString, _ => EmptyString
  | String c r, O => String (flip_ascii k c) r
  | String c r, S i' => String c (flip_bit i' k r)
  end.

(** The world after [saveOrderToDatabase] has announced the insert, and
    the document it inserts there. *)
Definition announced (d : OrderData.t) (w : world) : world :=
  {| orders := orders w; trace := trace w ++ [EvSaveOrder d] |}.

Definition document (E : env) (d : OrderData.t) (w : world) : order_record :=
  {| orderData := d; createdAt := now E (announced d w) |}.

(** The world once that insert has been accepted. *)
Definition saved (E : env) (d : OrderData.t) (w : world) : world :=
  {| orders := orders w ++ [document E d w]; trace := trace w ++ [EvSaveOrder d] |}.

(** [orderData] of the cash-on-delivery branch of [createOrder], and
    [orderData] of [verifyPayment]. *)
Definition cod_order (items : list item) (address : gmap string jsval)
    (paymentMethod total : jsval) : OrderData.t :=
  {| OrderData.items := items;
     OrderData.address := address;
     OrderData.paymentMethod := paymentMethod;
     OrderData.total := total;
     OrderData.paymentId := JNull;
     OrderData.razorpayOrderId := None;
     OrderData.status := JStr "confirmed" |}.

Definition prepaid_order (items : list item) (address : gmap string jsval)
    (total : jsval) (razorpay_order_id razorpay_payment_id : string) : OrderData.t :=
  {| OrderData.items := items;
     OrderData.address := address;
     OrderData.paymentMethod := JStr "prepaid";
     OrderData.total := total;
     OrderData.paymentId := JStr razorpay_payment_id;
     OrderData.razorpayOrderId := Some razorpay_order_id;
     OrderData.status := JStr "confirmed" |}.

(** The store is connected and answers the insert of [d] issued from
    [w] with [insertedId]. *)
Definition inserts (E : env) (d : OrderData.t) (w : world) (insertedId : string) : Prop :=
  db E (announced d w) = true /\
  insertOne E (document E d w) (announced d w) = Returns insertedId.

Definition store_accepts (E : env) (d : OrderData.t) (w : world) : Prop :=
  exists insertedId, inserts E d w insertedId.

(** From [w] to [w'] the stored orders are the same and the calls made
    are notification calls; a computation is quiet when that is all it
    does. *)
Definition notified (w w' : world) : Prop :=
  orders w' = orders w /\
  exists evs, trace w' = trace w ++ evs /\
              Forall (fun e => is_notification e = true) evs.

Definition quiet {A} (c : M A) : Prop := forall w, notified w (snd (c w)).

(** A computation that does not raise. *)
Definition never_throws {A} (c : M A) : Prop :=
  forall w msg, fst (c w) <> Throws msg.

(** A process whose Twilio client can be built and whose notification
    transports settle every call, by an answer or by an error. *)
Record responsive (E : env) : Prop := {
  initializationPromise_settles : forall w, initializationPromise E w <> Pending;
  isRegisteredUser_settles : forall chatId w, isRegisteredUser E chatId w <> Pending;
  getChatById_settles : forall chatId w, getChatById E chatId w <> Pending;
  client_sendMessage_settles : forall chatId m w, client_sendMessage E chatId m w <> Pending;
  twilio_built : forall w, twilio E w = Returns tt;
  messages_create_settles : forall to m w, messages_create E to m w <> Pending
}.

(** ** Sample collaborators and requests *)

Module Sample.

(** A stand-in for the HMAC primitive. *)
Definition keyed (key data : string) : string := key +:+ "/" +:+ data.

Definition E : env :=
  {| hmac_sha256_hex := keyed;
     RAZORPAY_KEY_SECRET := "s3cret";
     now := fun _ => 1700000000000;
     orders_create := fun amount _ _ =>
       Returns {| id := "order_1"; order_amount := amount; order_currency := "INR" |};
     db := fun _ => true;
     insertOne := fun _ w => Returns ("oid_" +:+ decimal (Z.of_nat (length (orders w))));
     isReady := fun _ _ => true;
     initializationPromise := fun _ => Returns tt;
     client := fun _ => true;
     isRegisteredUser := fun _ _ => Returns true;
     getChatById := fun _ _ => Returns true;
     client_sendMessage := fun _ _ _ => Returns None;
     twilio := fun _ => Returns tt;
     messages_create := fun _ _ _ => Returns "SM1" |}.

(** The same, with Twilio credentials that its constructor refuses. *)
Definition E_no_twilio : env :=
  {| hmac_sha256_hex := keyed;
     RAZORPAY_KEY_SECRET := "s3cret";
     now := now E;
     orders_create := orders_create E;
     db := db E;
     insertOne := insertOne E;
     isReady := isReady E;
     initializationPromise := initializationPromise E;
     client := client E;
     isRegisteredUser := isRegisteredUser E;
     getChatById := getChatById E;
     client_sendMessage := client_sendMessage E;
     twilio := fun _ => Throws "username is required";
     messages_create := messages_create E |}.

(** The same, with a chat session that initializes and never gets ready. *)
Definition E_chat_down : env :=
  {| hmac_sha256_hex := keyed;
     RAZORPAY_KEY_SECRET := "s3cret";
     now := now E;
     orders_create := orders_create E;
     db := db E;
     insertOne := insertOne E;
     isReady := fun _ _ => false;
     initializationPromise := initializationPromise E;
     client := client E;
     isRegisteredUser := isRegisteredUser E;
     getChatById := getChatById E;
     client_sendMessage := client_sendMessage E;
     twilio := twilio E;
     messages_create := messages_create E |}.

Definition w0 : world := {| orders := []; trace := [] |}.

Definition address : gmap string jsval :=
  <["fullName" := JStr "Asha Rao"]>
  (<["street" := JStr "12 MG Road"]>
  (<["city" := JStr "Indore"]>
  (<["state" := JStr "MP"]>
  (<["zipCode" := JStr "452001"]>
  (<["email" := JStr "asha@example.com"]>
  (<["phone" := JStr "09301680755"]> ∅)))))).

Definition body (items : list item) (paymentMethod total : jsval) : Body.t :=
  {| Body.items := Some items;
     Body.address := Some address;
     Body.paymentMethod := paymentMethod;
     Body.total := total;
     Body.paymentId := JUndefined;
     Body.status := JUndefined;
     Body.razorpay_order_id := None;
     Body.razorpay_payment_id := None;
     Body.razorpay_signature := None |}.

(** Two books at 250: a cash-on-delivery order of 500. *)
Definition two_books : list item :=
  [{| name := "Atlas"; price := 250; quantity := QtyNum 2 |}].

Definition cod_body : Body.t := body two_books (JStr "cod") (JNum 500).

(** One item with quantity 0 and a total of 500. *)
Definition zero_quantity : list item :=
  [{| name := "Atlas"; price := 500; quantity := QtyNum 0 |}].

Definition zero_quantity_body : Body.t := body zero_quantity (JStr "cod") (JNum 500).

(** An item without a quantity field. *)
Definition no_quantity : list item :=
  [{| name := "Atlas"; price := 500; quantity := QtyAbsent |}].

Definition no_quantity_body : Body.t := body no_quantity (JStr "cod") (JNum 500).

(** A total that does not match. *)
Definition mismatch_body : Body.t := body two_books (JStr "cod") (JNum 499).

(** A confirm-payment request carrying [signature]. *)
Definition confirm_body (signature : string) : Body.t :=
  {| Body.items := Some two_books;
     Body.address := Some address;
     Body.paymentMethod := JUndefined;
     Body.total := JNum 500;
     Body.paymentId := JUndefined;
     Body.status := JUndefined;
     Body.razorpay_order_id := Some "order_1";
     Body.razorpay_payment_id := Some "pay_1";
     Body.razorpay_signature := Some signature |}.

Definition genuine : string := "s3cret/order_1|pay_1".

Definition confirmed_data : OrderData.t :=
  {| OrderData.items := two_books;
     OrderData.address := address;
     OrderData.paymentMethod := JStr "prepaid";
     OrderData.total := JNum 500;
     OrderData.paymentId := JStr "pay_1";
     OrderData.razorpayOrderId := Some "order_1";
     OrderData.status := JStr "confirmed" |}.

(** A legacy save of a pending prepaid order whose total is not the sum. *)
Definition legacy_body : Body.t :=
  {| Body.items := Some [{| name := "Atlas"; price := 5; quantity := QtyNum 1 |}];
     Body.address := Some address;
     Body.paymentMethod := JStr "prepaid";
     Body.total := JNum 999;
     Body.paymentId := JStr "pay_1";
     Body.status := JStr "pending";
     Body.razorpay_order_id := None;
     Body.razorpay_payment_id := None;
     Body.razorpay_signature := None |}.

Definition legacy_data : OrderData.t :=
  {| OrderData.items := [{| name := "Atlas"; price := 5; quantity := QtyNum 1 |}];
     OrderData.address := address;
     OrderData.paymentMethod := JStr "prepaid";
     OrderData.total := JNum 999;
     OrderData.paymentId := JStr "pay_1";
     OrderData.razorpayOrderId := None;
     OrderData.status := JStr "pending" |}.

End Sample.

(** ** [sendMediaMessage] ([whatsappController.js], lines 291-311) *)

Module Media.

(** [finalNumber] of [sendMediaMessage] (lines 298-299) *)
Definition media_number (phoneNumber : string) : string :=
  let cleanNumber := Phone.strip_non_digits phoneNumber in
  if Phone.startsWith cleanNumber "91" then cleanNumber else "91" +:+ cleanNumber.

(** [error.message] of the [TypeError] of [this.client.sendMessage] on a
    client that is [null], and of [result.id] on a result that is [null]. *)
Definition null_client_error : string :=
  "Cannot read properties of null (reading 'sendMessage')".

Definition null_result_error : string :=
  "Cannot read properties of null (reading 'id')".

Section Send.

Variable E : env.

(** The media object that [MessageMedia.fromFilePath] builds. *)
Variable media : Type.

(** [MessageMedia.fromFilePath(mediaPath)] *)
Variable fromFilePath : string -> world -> reply media.

(** [this.client.sendMessage(chatId, media, { caption })]: [None] for a
    result that is [null], otherwise [result.id?.id || result.id]. *)
Variable client_sendMedia :
  string -> media -> string -> world -> reply (option (option string)).

Definition sendMediaMessage (phoneNumber : jsval) (mediaPath caption : string)
    : M send_result :=
  try_catch
    (waitForReady E ;;
     let* m := call (fromFilePath mediaPath) in
     match phoneNumber with
     | JStr p =>
         let finalNumber := media_number p in
         let chatId := Phone.chat_id finalNumber in
         let* has_client := read (client E) in
         if negb has_client then raise null_client_error
         else
           let* result := call (client_sendMedia chatId m caption) in
           match result with
           | Some i =>
               ret {| success := true;
                      messageId := i;
                      error := None;
                      phoneNumber := None;
                      provider := None |}
           | None => raise null_result_error
           end
     | _ => raise (replace_type_error phoneNumber)
     end)
    (fun error_message =>
       ret {| success := false;
              messageId := None;
              error := Some error_message;
              phoneNumber := None;
              provider := None |}).

End Send.

End Media.

(** ** The session of [WhatsAppService] ([whatsappController.js], lines 13-154
    and 313-351) *)

Module Session.

(** The state of [this.initializationPromise]. *)
Inductive promise :=
  | Unsettled
  | Resolved
  | Rejected (reason : string).

(** The fields of the service: whether [this.client] is set,
    [this.isReady], and [this.initializationPromise] ([None] for [null]). *)
Record t := {
  client : bool;
  isReady : bool;
  initializationPromise : option promise
}.

(** The constructor (lines 14-19), before it calls [initialize]. *)
Definition constructed : t :=
  {| client := false; isReady := false; initializationPromise := None |}.

(** [resolve()] and [reject(error)]: a promise settles once. *)
Definition resolve (p : option promise) : option promise :=
  match p with
  | Some Unsettled => Some Resolved
  | _ => p
  end.

Definition reject (reason : string) (p : option promise) : option promise :=
  match p with
  | Some Unsettled => Some (Rejected reason)
  | _ => p
  end.

(** [initialize] (lines 21-119). [new_Client] is the message of the error
    that building the client and registering its handlers throws, if any. *)
Definition initialize (new_Client : option string) (s : t) : t :=
  match initializationPromise s with
  | Some _ => s
  | None =>
      match new_Client with
      | None =>
          {| client := true; isReady := isReady s;
             initializationPromise := Some Unsettled |}
      | Some error_message =>
          {| client := client s; isReady := isReady s;
             initializationPromise := Some (Rejected error_message) |}
      end
  end.

(** The events the client emits, and the handlers of lines 60-100. *)
Inductive session_event :=
  | Qr (qr : string)
  | Ready
  | Authenticated
  | AuthFailure (msg : string)
  | Disconnected (reason : string)
  | Message (from body : string).

Definition on (ev : session_event) (s : t) : t :=
  match ev with
  | Ready =>
      {| client := client s; isReady := true;
         initializationPromise := resolve (initializationPromise s) |}
  | AuthFailure _ =>
      {| client := client s; isReady := isReady s;
         initializationPromise :=
           reject "WhatsApp authentication failed" (initializationPromise s) |}
  | Disconnected _ =>
      {| client := client s; isReady := false;
         initializationPromise := initializationPromise s |}
  | Qr _ | Authenticated | Message _ _ => s
  end.

Definition run (evs : list session_event) (s : t) : t :=
  fold_left (fun s ev => on ev s) evs s.

(** [destroy] (lines 344-350); [client_destroy] is how
    [this.client.destroy()] settles. *)
Definition destroy (client_destroy : reply unit) (s : t) : reply unit * t :=
  if client s then
    match client_destroy with
    | Returns _ =>
        (Returns tt,
         {| client := client s; isReady := false;
            initializationPromise := initializationPromise s |})
    | Throws msg => (Throws msg, s)
    | Pending => (Pending, s)
    end
  else (Returns tt, s).

(** What [getStatus] resolves to. *)
Record status := {
  status_isReady : bool;
  clientInfo : option (string * string)
}.

(** [x || 'Unknown'] *)
Definition or_Unknown (x : option string) : string :=
  match x with
  | Some v => if String.eqb v EmptyString then "Unknown" else v
  | None => "Unknown"
  end.

(** [getStatus] (lines 313-321). [user] and [pushname] are
    [this.client.info?.wid?.user] and [this.client.info?.pushname]. *)
Definition getStatus (user pushname : option string) (s : t) : reply status :=
  if isReady s then
    if client s then
      Returns {| status_isReady := true;
                 clientInfo := Some (or_Unknown user, or_Unknown pushname) |}
    else Throws "Cannot read properties of null (reading 'info')"
  else Returns {| status_isReady := false; clientInfo := None |}.

(** The states of a service: built by the constructor, then changed by
    the events of its client, when it has one, and by [destroy]. *)
Inductive reachable : t -> Prop :=
  | reachable_initialize new_Client :
      reachable (initialize new_Client constructed)
  | reachable_on ev s :
      reachable s -> client s = true -> reachable (on ev s)
  | reachable_destroy client_destroy s :
      reachable s -> reachable (snd (destroy client_destroy s)).

(** What [initializeWithRetry] does, in order. *)
Inductive step :=
  | Attempt (i : nat)
  | Wait (delay : Z)
  | ClearSession (i : nat).

(** The loop of [initializeWithRetry] (lines 122-153) from iteration [i];
    [client_initialize i] is how [this.client.initialize()] settles in
    iteration [i]. *)
Fixpoint retry_from (client_initialize : nat -> reply unit)
    (maxRetries : nat) (delay : Z) (fuel i : nat) : list step * reply unit :=
  match fuel with
  | O => ([], Returns tt)
  | S fuel' =>
      if Nat.ltb i maxRetries then
        match client_initialize i with
        | Returns _ => ([Attempt i], Returns tt)
        | Pending => ([Attempt i], Pending)
        | Throws error_message =>
            if Nat.eqb i (maxRetries - 1) then ([Attempt i], Throws error_message)
            else
              let cleanup := if Nat.ltb 0 i then [ClearSession i] else [] in
              let '(steps, r) :=
                retry_from client_initialize maxRetries delay fuel' (S i) in
              (Attempt i :: Wait delay :: cleanup ++ steps, r)
        end
      else ([], Returns tt)
  end.

(** [initializeWithRetry(maxRetries = 3, delay = 5000)] (lines 121-154) *)
Definition initializeWithRetry (client_initialize : nat -> reply unit)
    (maxRetries : nat) (delay : Z) : list step * reply unit :=
  retry_from client_initialize maxRetries delay maxRetries 0.

(** The steps of a failed iteration that is not the last. *)
Definition failed_iteration (delay : Z) (i : nat) : list step :=
  Attempt i :: Wait delay :: (if Nat.ltb 0 i then [ClearSession i] else []).

Definition is_attempt (st : step) : bool :=
  match st with Attempt _ => true | _ => false end.

End Session.

(** The collaborators of a process whose session is [s] and receives no
    event while a call runs. *)
Definition frozen (E : env) (s : Session.t) : env :=
  {| hmac_sha256_hex := hmac_sha256_hex E;
     RAZORPAY_KEY_SECRET := RAZORPAY_KEY_SECRET E;
     now := now E;
     orders_create := orders_create E;
     db := db E;
     insertOne := insertOne E;
     isReady := fun _ _ => Session.isReady s;
     initializationPromise := fun _ =>
       match Session.initializationPromise s with
       | Some Session.Unsettled => Pending
       | Some (Session.Rejected reason) => Throws reason
       | Some Session.Resolved | None => Returns tt
       end;
     client := fun _ => Session.client s;
     isRegisteredUser := isRegisteredUser E;
     getChatById := getChatById E;
     client_sendMessage := client_sendMessage E;
     twilio := twilio E;
     messages_create := messages_create E |}.

(** ** [config/db.js] *)

Module Db.

(** The module variables [db] and [client]: whether each is set. *)
Record t := { db : bool; client : bool }.

(** How a call ends: it returns, raises, leaves the process with
    [process.exit(code)], or waits on a connection that never settles. *)
Inductive outcome :=
  | Done
  | Raised (msg : string)
  | Exited (code : Z)
  | Waiting.

(** [connectToDatabase] (lines 7-30). [MONGO_URI] is
    [process.env.MONGO_URI]; [new_MongoClient] is the message of the
    error the constructor throws, if any; [connect] is how
    [client.connect()] settles. *)
Definition connectToDatabase (MONGO_URI : option string)
    (new_MongoClient : option string) (connect : reply unit) (s : t) : outcome * t :=
  match given MONGO_URI with
  | None => (Raised "MONGO_URI environment variable is not defined", s)
  | Some uri =>
      match new_MongoClient with
      | Some error_message => (Raised error_message, s)
      | None =>
          let s1 := {| db := db s; client := true |} in
          match connect with
          | Returns _ => (Done, {| db := true; client := true |})
          | Throws _ => (Exited 1, s1)
          | Pending => (Waiting, s1)
          end
      end
  end.

(** [getDb] (lines 32-37) and [getClient] (lines 39-44) *)
Definition getDb (s : t) : reply unit :=
  if db s then Returns tt else Throws "Database not connected".

Definition getClient (s : t) : reply unit :=
  if client s then Returns tt else Throws "MongoDB client not initialized".

(** The module as it is loaded. *)
Definition loaded : t := {| db := false; client := false |}.

End Db.

(** ** More vocabulary and sample collaborators *)

(** The world in which a send proceeds, once its attempt is recorded. *)
Definition attempted (e : event) (w : world) : world :=
  {| orders := orders w; trace := trace w ++ [e] |}.

(** A process whose chat transport settles every call. *)
Record chat_settles (E : env) : Prop := {
  chat_initializationPromise : forall w, initializationPromise E w <> Pending;
  chat_isRegisteredUser : forall chatId w, isRegisteredUser E chatId w <> Pending;
  chat_getChatById : forall chatId w, getChatById E chatId w <> Pending;
  chat_client_sendMessage : forall chatId m w, client_sendMessage E chatId m w <> Pending
}.

(** A [legacy] request passes the checks of [saveOrder]. *)
Definition legacy_valid (body : Body.t) (items : list item)
    (address : gmap string jsval) : Prop :=
  Body.items body = Some items /\
  Body.address body = Some address /\
  truthy (Body.paymentMethod body) = true /\
  truthy (Body.total body) = true /\
  truthy (Body.status body) = true /\
  exists phone, get address "phone" = JStr phone /\ phone <> EmptyString.

(** [orderData] of [saveOrder]. *)
Definition legacy_order (body : Body.t) (items : list item)
    (address : gmap string jsval) : OrderData.t :=
  {| OrderData.items := items;
     OrderData.address := address;
     OrderData.paymentMethod := Body.paymentMethod body;
     OrderData.total := Body.total body;
     OrderData.paymentId :=
       if strict_eq (Body.paymentMethod body) (JStr "prepaid")
       then Body.paymentId body else JNull;
     OrderData.razorpayOrderId := None;
     OrderData.status := Body.status body |}.

Module Scenario.

(** [Sample.E] before [connectToDatabase] has completed. *)
Definition E_no_db : env :=
  {| hmac_sha256_hex := hmac_sha256_hex Sample.E;
     RAZORPAY_KEY_SECRET := RAZORPAY_KEY_SECRET Sample.E;
     now := now Sample.E;
     orders_create := orders_create Sample.E;
     db := fun _ => false;
     insertOne := insertOne Sample.E;
     isReady := isReady Sample.E;
     initializationPromise := initializationPromise Sample.E;
     client := client Sample.E;
     isRegisteredUser := isRegisteredUser Sample.E;
     getChatById := getChatById Sample.E;
     client_sendMessage := client_sendMessage Sample.E;
     twilio := twilio Sample.E;
     messages_create := messages_create Sample.E |}.

(** [Sample.E] with a session that has been initialized and has seen no
    event, and with one that was ready and then disconnected. *)
Definition starting : Session.t := Session.initialize None Session.constructed.

Definition E_starting : env := frozen Sample.E starting.

Definition dropped : Session.t :=
  Session.run [Session.Ready; Session.Disconnected "NAVIGATION"] starting.

Definition E_dropped : env := frozen Sample.E dropped.

(** [Sample.E] with a customer that is not on WhatsApp. *)
Definition E_unregistered : env :=
  {| hmac_sha256_hex := hmac_sha256_hex Sample.E;
     RAZORPAY_KEY_SECRET := RAZORPAY_KEY_SECRET Sample.E;
     now := now Sample.E;
     orders_create := orders_create Sample.E;
     db := db Sample.E;
     insertOne := insertOne Sample.E;
     isReady := isReady Sample.E;
     initializationPromise := initializationPromise Sample.E;
     client := client Sample.E;
     isRegisteredUser := fun _ _ => Returns false;
     getChatById := getChatById Sample.E;
     client_sendMessage := client_sendMessage Sample.E;
     twilio := twilio Sample.E;
     messages_create := messages_create Sample.E |}.

(** An address that has a name and no phone. *)
Definition address_without_phone : gmap string jsval :=
  <["fullName" := JStr "Asha Rao"]> ∅.

Definition confirm_without_phone : Body.t :=
  {| Body.items := Some Sample.two_books;
     Body.address := Some address_without_phone;
     Body.paymentMethod := JUndefined;
     Body.total := JNum 500;
     Body.paymentId := JUndefined;
     Body.status := JUndefined;
     Body.razorpay_order_id := Some "order_1";
     Body.razorpay_payment_id := Some "pay_1";
     Body.razorpay_signature := Some Sample.genuine |}.

(** A prepaid order of one item priced at the double nearest to 19.99. *)
Definition fractional_items : list item :=
  [{| name := "Atlas"; price := 0x1.3fd70a3d70a3dp+4; quantity := QtyNum 1 |}].

Definition fractional_body : Body.t :=
  Sample.body fractional_items (JStr "prepaid") (JNum 0x1.3fd70a3d70a3dp+4).

(** Three items without a quantity, priced 2^53, 1 and 1, with the total
    2^53 + 2; the same items with the large one last; and two items
    priced 2^53 and 1 with the total 2^53. *)
Definition rounded_items : list item :=
  [{| name := "Atlas"; price := 9007199254740992; quantity := QtyAbsent |};
   {| name := "Pen"; price := 1; quantity := QtyAbsent |};
   {| name := "Ink"; price := 1; quantity := QtyAbsent |}].

Definition reordered_items : list item :=
  [{| name := "Pen"; price := 1; quantity := QtyAbsent |};
   {| name := "Ink"; price := 1; quantity := QtyAbsent |};
   {| name := "Atlas"; price := 9007199254740992; quantity := QtyAbsent |}].

Definition rounded_body : Body.t :=
  Sample.body rounded_items (JStr "cod") (JNum 9007199254740994).

Definition reordered_body : Body.t :=
  Sample.body reordered_items (JStr "cod") (JNum 9007199254740994).

Definition absorbed_items : list item :=
  [{| name := "Atlas"; price := 9007199254740992; quantity := QtyNum 1 |};
   {| name := "Pen"; price := 1; quantity := QtyNum 1 |}].

Definition absorbed_body : Body.t :=
  Sample.body absorbed_items (JStr "cod") (JNum 9007199254740992).

(** A request with an unknown payment method, and one with no item. *)
Definition upi_body : Body.t := Sample.body Sample.two_books (JStr "upi") (JNum 500).

Definition prepaid_body : Body.t :=
  Sample.body Sample.two_books (JStr "prepaid") (JNum 500).

Definition empty_body : Body.t := Sample.body [] (JStr "cod") (JNum 500).

(** A request whose address has an empty city. *)
Definition no_city_body : Body.t :=
  {| Body.items := Some Sample.two_books;
     Body.address := Some (<["city" := JStr EmptyString]> Sample.address);
     Body.paymentMethod := JStr "cod";
     Body.total := JNum 500;
     Body.paymentId := JUndefined;
     Body.status := JUndefined;
     Body.razorpay_order_id := None;
     Body.razorpay_payment_id := None;
     Body.razorpay_signature := None |}.

(** A client whose start fails twice and then succeeds, and one whose
    start always fails. *)
Definition third_time (i : nat) : reply unit :=
  match i with
  | 0%nat => Throws "net::ERR_TIMED_OUT"
  | 1%nat => Throws "Protocol error"
  | _ => Returns tt
  end.

Definition never_starts (i : nat) : reply unit :=
  Throws ("attempt " +:+ decimal (Z.of_nat i)).

End Scenario.

(** ** The two normalizations *)

Module PhoneFacts.
Import Phone.

Lemma strip_all_digits s : all_digits (strip_non_digits s) = true.
Proof.
  induction s as [|c r IH]; simpl; [reflexivity|].
  destruct (is_digit c) eqn:E; simpl; [rewrite E|]; auto.
Qed.

Lemma strip_fixed s : all_digits s = true -> strip_non_digits s = s.
Proof.
  induction s as [|c r IH]; simpl; [reflexivity|].
  intros H. apply andb_true_iff in H as [Hc Hr].
  rewrite Hc, IH; auto.
Qed.

Lemma all_digits_substring_from n s :
  all_digits s = true -> all_digits (substring_from n s) = true.
Proof.
  revert s; induction n as [|n IH]; intros [|c r]; simpl; auto.
  intros H. apply andb_true_iff in H as [_ Hr]. auto.
Qed.

Lemma whatsapp_number_shape p :
  all_digits (whatsapp_number p) = true /\
  startsWith (whatsapp_number p) "91" = true.
Proof.
  unfold whatsapp_number.
  pose proof (strip_all_digits p) as Hd.
  destruct (startsWith (strip_non_digits p) "91") eqn:E91; [auto|].
  destruct (startsWith (strip_non_digits p) "0").
  - split; [|reflexivity].
    change (all_digits (substring_from 1 (strip_non_digits p)) = true).
    now apply all_digits_substring_from.
  - split; [|reflexivity]. exact Hd.
Qed.

Lemma whatsapp_number_fixed s :
  all_digits s = true -> startsWith s "91" = true -> whatsapp_number s = s.
Proof.
  intros Hd H91. unfold whatsapp_number.
  rewrite (strip_fixed s Hd), H91. reflexivity.
Qed.

(** C8: the phone normalization of the chat channel is idempotent, and
    the inputs 09301680755, 919301680755 and 9301680755 normalize to the
    same number. *)
Theorem whatsapp_number_idempotent :
  (forall p, whatsapp_number (whatsapp_number p) = whatsapp_number p) /\
  whatsapp_number "09301680755" = "919301680755" /\
  whatsapp_number "919301680755" = "919301680755" /\
  whatsapp_number "9301680755" = "919301680755".
Proof.
  split; [|repeat split].
  intros p. destruct (whatsapp_number_shape p) as [Hd H91].
  now apply whatsapp_number_fixed.
Qed.

(** The two channels agree on a number that has no trunk prefix. *)
Lemma sms_number_agrees p :
  startsWith (strip_non_digits p) "0" = false -> sms_number p = whatsapp_number p.
Proof.
  intros H0. unfold sms_number, whatsapp_number. rewrite H0.
  assert (Hplus : startsWith (strip_non_digits p) "+" = false).
  { pose proof (strip_all_digits p) as Hd.
    destruct (strip_non_digits p) as [|c r]; [reflexivity|].
    simpl in Hd. apply andb_true_iff in Hd as [Hc _].
    change (startsWith (String c r) "+") with (if Ascii.eqb "+" c then true else false).
    destruct (Ascii.eqb "+" c) eqn:E; [|reflexivity].
    apply Ascii.eqb_eq in E. subst c. discriminate. }
  rewrite Hplus. now destruct (startsWith (strip_non_digits p) "91").
Qed.

End PhoneFacts.

(** ** The computations *)

Module Effects.

Lemma notified_refl w : notified w w.
Proof. split; [reflexivity|]. exists []. now rewrite app_nil_r. Qed.

Lemma notified_trans w1 w2 w3 : notified w1 w2 -> notified w2 w3 -> notified w1 w3.
Proof.
  intros [Ho1 (evs1 & Ht1 & Hf1)] [Ho2 (evs2 & Ht2 & Hf2)].
  split; [congruence|].
  exists (evs1 ++ evs2). split.
  - rewrite Ht2, Ht1. now rewrite app_assoc.
  - apply Forall_app. now split.
Qed.

Lemma quiet_ret {A} (a : A) : quiet (ret a).
Proof. intros w. apply notified_refl. Qed.

Lemma quiet_raise {A} msg : quiet (@raise A msg).
Proof. intros w. apply notified_refl. Qed.

Lemma quiet_call {A} (f : world -> reply A) : quiet (call f).
Proof. intros w. apply notified_refl. Qed.

Lemma quiet_read {A} (f : world -> A) : quiet (read f).
Proof. intros w. apply notified_refl. Qed.

Lemma quiet_respond code b : quiet (respond code b).
Proof. apply quiet_ret. Qed.

Lemma quiet_emit e : is_notification e = true -> quiet (emit e).
Proof.
  intros He w; split; [reflexivity|]. exists [e]. split; [reflexivity|].
  constructor; [exact He | constructor].
Qed.

Lemma quiet_step {A} (c : M A) w w1 (r : reply A) :
  quiet c -> c w = (r, w1) -> notified w w1.
Proof. intros Hq Hc. specialize (Hq w). now rewrite Hc in Hq. Qed.

Lemma quiet_bind {A B} (c : M A) (k : A -> M B) :
  quiet c -> (forall a, quiet (k a)) -> quiet (bind c k).
Proof.
  intros Hc Hk w. unfold bind.
  destruct (c w) as [[a|msg|] w1] eqn:Ec;
    pose proof (quiet_step c w w1 _ Hc Ec) as H1; simpl; auto.
  apply (notified_trans w w1); auto. apply Hk.
Qed.

Lemma quiet_try {A} (c : M A) (h : string -> M A) :
  quiet c -> (forall msg, quiet (h msg)) -> quiet (try_catch c h).
Proof.
  intros Hc Hh w. unfold try_catch.
  destruct (c w) as [[a|msg|] w1] eqn:Ec;
    pose proof (quiet_step c w w1 _ Hc Ec) as H1; simpl; auto.
  apply (notified_trans w w1); auto. apply Hh.
Qed.

Lemma never_throws_ret {A} (a : A) : never_throws (ret a).
Proof. intros w msg. discriminate. Qed.

Lemma never_throws_try {A} (c : M A) (h : string -> M A) :
  (forall msg, never_throws (h msg)) -> never_throws (try_catch c h).
Proof.
  intros Hh w msg. unfold try_catch.
  destruct (c w) as [[a|msg'|] w1]; simpl; try discriminate. apply Hh.
Qed.

Lemma never_throws_bind {A B} (c : M A) (k : A -> M B) :
  never_throws c -> (forall a, never_throws (k a)) -> never_throws (bind c k).
Proof.
  intros Hc Hk w msg. unfold bind.
  specialize (Hc w). destruct (c w) as [[a|msg'|] w1]; simpl in *.
  - apply Hk.
  - exfalso. now apply (Hc msg').
  - discriminate.
Qed.

Lemma never_throws_emit e : never_throws (emit e).
Proof. intros w msg. discriminate. Qed.

End Effects.

Ltac quiet_tac :=
  first
    [ apply Effects.quiet_respond
    | apply Effects.quiet_ret
    | apply Effects.quiet_raise
    | apply Effects.quiet_call
    | apply Effects.quiet_read
    | apply Effects.quiet_emit; reflexivity
    | apply Effects.quiet_bind; [|intros ?]
    | apply Effects.quiet_try; [|intros ?]
    | match goal with
      | |- quiet (if ?b then _ else _) => destruct b
      | |- quiet (match ?x with _ => _ end) => destruct x
      end ].

Module ServiceFacts.

(** The polls of [waitForReady] change nothing: they end with [true] or
    with the error of the thirtieth miss. *)
Lemma poll_ready_cases E n : forall k w,
  poll_ready E n k w = (Returns true, w) \/
  poll_ready E n k w = (Throws "WhatsApp client not ready after waiting", w).
Proof.
  induction n as [|n IH]; intros k w; simpl; [now right|].
  unfold bind, read. destruct (isReady E k w); [now left | apply IH].
Qed.

Lemma waitForReady_cases E w :
  exists r, waitForReady E w = (r, w) /\
            (initializationPromise E w <> Pending -> r <> Pending).
Proof.
  unfold waitForReady, bind, read, call, ret.
  destruct (isReady E 0 w); [eexists; split; [reflexivity | discriminate]|].
  destruct (initializationPromise E w) as [[]|msg|].
  - destruct (poll_ready_cases E 30 1 w) as [-> | ->];
      eexists; (split; [reflexivity | discriminate]).
  - eexists; split; [reflexivity | discriminate].
  - eexists; split; [reflexivity | contradiction].
Qed.

Lemma quiet_waitForReady E : quiet (waitForReady E).
Proof.
  intros w. destruct (waitForReady_cases E w) as (r & -> & _).
  apply Effects.notified_refl.
Qed.

Lemma quiet_sendMessage E p m : quiet (sendMessage E p m).
Proof.
  unfold sendMessage.
  repeat first [apply quiet_waitForReady | quiet_tac].
Qed.

Lemma quiet_sendTextSMS E p m : quiet (sendTextSMS E p m).
Proof. unfold sendTextSMS. repeat quiet_tac. Qed.

Lemma quiet_sendNotifications E address items total paymentMethod paymentId :
  quiet (sendNotifications E address items total paymentMethod paymentId).
Proof.
  unfold sendNotifications.
  apply Effects.quiet_bind; [apply quiet_sendMessage | intros ?].
  apply Effects.quiet_bind; [apply quiet_sendMessage | intros ?].
  apply Effects.quiet_bind; [apply quiet_sendTextSMS | intros ?].
  apply Effects.quiet_ret.
Qed.

(** [sendMessage] converts every failure into a result. *)
Lemma sendMessage_never_throws E p m : never_throws (sendMessage E p m).
Proof.
  unfold sendMessage.
  apply Effects.never_throws_bind; [apply Effects.never_throws_emit | intros _].
  apply Effects.never_throws_try. intros msg. apply Effects.never_throws_ret.
Qed.

(** [sendTextSMS] raises only what the Twilio constructor raises. *)
Lemma sendTextSMS_throws E p m w msg :
  fst (sendTextSMS E p m w) = Throws msg ->
  twilio E {| orders := orders w; trace := trace w ++ [EvSms p m] |} = Throws msg.
Proof.
  unfold sendTextSMS, bind, emit, call. simpl.
  destruct (twilio E _) as [[]|msg'|]; simpl; try discriminate; [|congruence].
  intros H. exfalso. revert H.
  apply (Effects.never_throws_try _ _ (fun e => Effects.never_throws_ret _)).
Qed.

Lemma emit_then {A} e (c : M A) w :
  quiet c ->
  orders (snd (bind (emit e) (fun _ => c) w)) = orders w /\
  exists evs, trace (snd (bind (emit e) (fun _ => c) w)) = trace w ++ e :: evs /\
              Forall (fun e => is_notification e = true) evs.
Proof.
  intros Hc. unfold bind, emit.
  destruct (Hc {| orders := orders w; trace := trace w ++ [e] |}) as [Ho (evs & Ht & Hf)].
  split; [exact Ho|]. exists evs. split; [|exact Hf].
  rewrite Ht. simpl. now rewrite <- app_assoc.
Qed.

(** Each send starts by recording its attempt. *)
Lemma sendMessage_trace E p m w :
  orders (snd (sendMessage E p m w)) = orders w /\
  exists evs, trace (snd (sendMessage E p m w)) = trace w ++ EvWhatsApp p m :: evs /\
              Forall (fun e => is_notification e = true) evs.
Proof.
  unfold sendMessage. apply emit_then.
  repeat first [apply quiet_waitForReady | quiet_tac].
Qed.

Lemma sendTextSMS_trace E p m w :
  orders (snd (sendTextSMS E p m w)) = orders w /\
  exists evs, trace (snd (sendTextSMS E p m w)) = trace w ++ EvSms p m :: evs /\
              Forall (fun e => is_notification e = true) evs.
Proof. unfold sendTextSMS. apply emit_then. repeat quiet_tac. Qed.

(** When [sendNotifications] returns, the three sends were attempted in
    order and the report has one entry for each. *)
Lemma sendNotifications_returns E address items total paymentMethod paymentId w n w' :
  sendNotifications E address items total paymentMethod paymentId w = (Returns n, w') ->
  let adminMessage := generateAdminMessage address items total paymentMethod paymentId in
  let customerMessage := generateCustomerMessage address total paymentMethod in
  (exists adminResult customerResult smsResult,
     n = [("admin", sent_or_failed adminResult);
          ("customer", sent_or_failed customerResult);
          ("sms", sent_or_failed smsResult)]) /\
  orders w' = orders w /\
  exists evs1 evs2 evs3,
    trace w' = trace w ++ EvWhatsApp (JStr "919301680755") adminMessage :: evs1
                 ++ EvWhatsApp (get address "phone") customerMessage :: evs2
                 ++ EvSms (get address "phone") customerMessage :: evs3.
Proof.
  simpl. unfold sendNotifications, bind.
  destruct (sendMessage E (JStr "919301680755") _ w) as [[ra|?|] w1] eqn:E1;
    try discriminate.
  destruct (sendMessage E (get address "phone") _ w1) as [[rc|?|] w2] eqn:E2;
    try discriminate.
  destruct (sendTextSMS E (get address "phone") _ w2) as [[rs|?|] w3] eqn:E3;
    try discriminate.
  unfold ret. intros [= <- <-].
  pose proof (sendMessage_trace E (JStr "919301680755")
                (generateAdminMessage address items total paymentMethod paymentId) w) as H1.
  pose proof (sendMessage_trace E (get address "phone")
                (generateCustomerMessage address total paymentMethod) w1) as H2.
  pose proof (sendTextSMS_trace E (get address "phone")
                (generateCustomerMessage address total paymentMethod) w2) as H3.
  rewrite E1 in H1. rewrite E2 in H2. rewrite E3 in H3. simpl in H1, H2, H3.
  destruct H1 as [Ho1 (evs1 & Ht1 & _)].
  destruct H2 as [Ho2 (evs2 & Ht2 & _)].
  destruct H3 as [Ho3 (evs3 & Ht3 & _)].
  split; [eauto|]. split; [congruence|].
  exists evs1, evs2, evs3. rewrite Ht3, Ht2, Ht1.
  repeat (rewrite <- app_assoc; simpl). reflexivity.
Qed.

(** In a responsive process each send resolves to a result. *)
Lemma sendMessage_resolves E p m w :
  responsive E -> exists r w', sendMessage E p m w = (Returns r, w').
Proof.
  intros [Hinit Hreg Hchat Hsend _ _].
  unfold sendMessage, bind, try_catch, emit. cbn -[waitForReady].
  set (w1 := {| orders := orders w; trace := trace w ++ [EvWhatsApp p m] |}).
  destruct (waitForReady_cases E w1) as (r & -> & Hr).
  specialize (Hr (Hinit w1)).
  destruct r as [ready|?|]; [|unfold ret; eauto|contradiction].
  unfold call, read, raise, ret. cbn.
  destruct (client E w1); cbn; [|eauto].
  destruct p as [| | | |p]; eauto.
  pose proof (Hreg (Phone.chat_id (Phone.whatsapp_number p)) w1) as H2.
  destruct (isRegisteredUser E _ w1) as [[|]|?|]; cbn; [|eauto|eauto|contradiction].
  pose proof (Hchat (Phone.chat_id (Phone.whatsapp_number p)) w1) as H3.
  destruct (getChatById E _ w1) as [?|?|]; cbn; [| |contradiction].
  - match goal with
    | |- context [client_sendMessage E ?c ?m ?w2] =>
        pose proof (Hsend c m w2) as H4; destruct (client_sendMessage E c m w2) as [?|?|]
    end; cbn; [eauto|eauto|contradiction].
  - match goal with
    | |- context [client_sendMessage E ?c ?m ?w2] =>
        pose proof (Hsend c m w2) as H4; destruct (client_sendMessage E c m w2) as [?|?|]
    end; cbn; [eauto|eauto|contradiction].
Qed.

Lemma sendTextSMS_resolves E p m w :
  responsive E -> exists r w', sendTextSMS E p m w = (Returns r, w').
Proof.
  intros [_ _ _ _ Htw Hcreate].
  unfold sendTextSMS, bind, try_catch, emit, call, raise, ret. cbn.
  rewrite Htw.
  destruct p as [| | | |p]; eauto.
  match goal with
  | |- context [messages_create E ?r ?m ?w2] =>
      pose proof (Hcreate r m w2) as H1; destruct (messages_create E r m w2) as [?|?|]
  end; cbn; [eauto|eauto|contradiction].
Qed.

Lemma sendNotifications_resolves E address items total paymentMethod paymentId w :
  responsive E ->
  exists n w',
    sendNotifications E address items total paymentMethod paymentId w = (Returns n, w').
Proof.
  intros HE. unfold sendNotifications, bind.
  destruct (sendMessage_resolves E (JStr "919301680755")
              (generateAdminMessage address items total paymentMethod paymentId) w HE)
    as (ra & w1 & ->).
  destruct (sendMessage_resolves E (get address "phone")
              (generateCustomerMessage address total paymentMethod) w1 HE)
    as (rc & w2 & ->).
  destruct (sendTextSMS_resolves E (get address "phone")
              (generateCustomerMessage address total paymentMethod) w2 HE)
    as (rs & w3 & ->).
  unfold ret. eauto.
Qed.

(** With a Twilio client that can be built, the dispatch does not raise. *)
Lemma sendNotifications_never_throws E address items total paymentMethod paymentId :
  (forall w msg, twilio E w <> Throws msg) ->
  never_throws (sendNotifications E address items total paymentMethod paymentId).
Proof.
  intros Htw. unfold sendNotifications.
  apply Effects.never_throws_bind; [apply sendMessage_never_throws | intros ?].
  apply Effects.never_throws_bind; [apply sendMessage_never_throws | intros ?].
  apply Effects.never_throws_bind; [| intros ?; apply Effects.never_throws_ret].
  intros w msg H. apply sendTextSMS_throws in H. now apply Htw in H.
Qed.

(** A chat session that is not ready fails the two chat sends and leaves
    the SMS send alone. *)
Lemma chat_failure_is_reported :
  fst (sendNotifications Sample.E_chat_down Sample.address Sample.two_books
         (JNum 500) (JStr "cod") JNull Sample.w0)
  = Returns [("admin", "Failed"); ("customer", "Failed"); ("sms", "Sent")].
Proof. reflexivity. Qed.

(** C9: when the Twilio constructor refuses the credentials, the SMS send
    raises before its [try]: the two chat sends have delivered, and the
    dispatch raises instead of reporting the SMS channel as failed, so
    [createOrder] answers 500 for an order it has persisted. *)
Theorem sendNotifications_raises_without_twilio :
  let admin := generateAdminMessage Sample.address Sample.two_books
                 (JNum 500) (JStr "cod") JNull in
  let customer := generateCustomerMessage Sample.address (JNum 500) (JStr "cod") in
  fst (sendNotifications Sample.E_no_twilio Sample.address Sample.two_books
         (JNum 500) (JStr "cod") JNull Sample.w0)
  = Throws "username is required" /\
  trace (snd (sendNotifications Sample.E_no_twilio Sample.address Sample.two_books
                (JNum 500) (JStr "cod") JNull Sample.w0))
  = [EvWhatsApp (JStr "919301680755") admin;
     EvWhatsAppDeliver "919301680755@c.us" admin;
     EvWhatsApp (JStr "09301680755") customer;
     EvWhatsAppDeliver "919301680755@c.us" customer;
     EvSms (JStr "09301680755") customer] /\
  fst (createOrder Sample.E_no_twilio Sample.cod_body Sample.w0)
  = Returns {| http_status := 500;
               json := JsonError "Error creating order: username is required" |} /\
  length (orders (snd (createOrder Sample.E_no_twilio Sample.cod_body Sample.w0))) = 1%nat.
Proof. repeat split. Qed.

(** C7: on the input 09301680755 the SMS path keeps the trunk prefix
    that the chat path removes: it dials +9109301680755, while the chat
    path messages 919301680755. *)
Theorem sms_number_keeps_trunk_prefix :
  let m := CustomerMessage Sample.address (JNum 500) (JStr "cod") in
  Phone.sms_number "09301680755" = "9109301680755" /\
  Phone.whatsapp_number "09301680755" = "919301680755" /\
  trace (snd (sendTextSMS Sample.E (JStr "09301680755") m Sample.w0))
    = [EvSms (JStr "09301680755") m; EvTwilioCreate "+9109301680755" m] /\
  trace (snd (sendMessage Sample.E (JStr "09301680755") m Sample.w0))
    = [EvWhatsApp (JStr "09301680755") m; EvWhatsAppDeliver "919301680755@c.us" m].
Proof. repeat split. Qed.

End ServiceFacts.

(** ** The order controller *)

Module OrderFacts.

(** Two doubles that compare equal are the same double, unless they are
    the two zeros. *)
Lemma SFeqb_eq (a b : spec_float) :
  SFeqb a b = true -> SFeqb b (S754_zero false) = false -> a = b.
Proof.
  unfold SFeqb.
  destruct a as [sa|sa| |sa ma ea], b as [sb|sb| |sb mb eb]; simpl;
    try discriminate;
    try (destruct sa; discriminate); try (destruct sb; discriminate).
  - destruct sa, sb; intros; (discriminate || reflexivity).
  - intros H _.
    assert (Hs : sa = sb) by (destruct sa, sb; (discriminate || reflexivity)).
    subst sb.
    destruct (Z.compare ea eb) eqn:He;
      [|destruct sa; discriminate|destruct sa; discriminate].
    apply Z.compare_eq in He. subst eb.
    destruct (Pos.compare_cont Eq ma mb) eqn:Hm;
      [|destruct sa; discriminate|destruct sa; discriminate].
    apply Pos.compare_eq in Hm. now subst mb.
Qed.

Lemma float_eqb_eq (a b : float) :
  PrimFloat.eqb a b = true -> PrimFloat.is_zero b = false -> a = b.
Proof.
  unfold PrimFloat.is_zero. rewrite !FloatAxioms.eqb_spec. intros H Hz.
  apply Prim2SF_inj. now apply SFeqb_eq.
Qed.

Lemma truthy_number n :
  truthy (JNum n) = true -> PrimFloat.is_zero n = false /\ PrimFloat.eqb n n = true.
Proof.
  simpl. unfold PrimFloat.is_nan.
  destruct (PrimFloat.is_zero n); [discriminate|].
  destruct (PrimFloat.eqb n n); [auto | discriminate].
Qed.

(** [a === b] with [b] truthy: the two are the same value. *)
Lemma strict_eq_eq a b : truthy b = true -> strict_eq a b = true -> a = b.
Proof.
  destruct a, b; simpl strict_eq; try discriminate; intros Ht H; f_equal.
  - now apply Bool.eqb_prop.
  - apply float_eqb_eq; [exact H | now apply truthy_number].
  - now apply String.eqb_eq.
Qed.

Lemma strict_eq_refl a : truthy a = true -> strict_eq a a = true.
Proof.
  destruct a; simpl strict_eq; auto.
  - intros _. apply Bool.eqb_reflx.
  - intros Ht. now apply truthy_number.
  - intros _. apply String.eqb_refl.
Qed.

Lemma quantity_or_1_counted q : quantity_or_1 q = counted_quantity q.
Proof.
  destruct q as [| |n]; try reflexivity. simpl.
  now destruct (PrimFloat.is_zero n || PrimFloat.is_nan n).
Qed.

Lemma fold_counted items : forall acc,
  fold_left
    (fun sum it =>
       PrimFloat.add sum (PrimFloat.mul (price it) (quantity_or_1 (quantity it))))
    items acc
  = counted_sum_from acc items.
Proof.
  induction items as [|it rest IH]; intros acc; simpl; [reflexivity|].
  now rewrite IH, quantity_or_1_counted.
Qed.

(** The reduction of [createOrder] computes the counted sum. *)
Lemma calculatedTotal_counted items : calculatedTotal items = counted_sum items.
Proof. unfold calculatedTotal, counted_sum. apply fold_counted. Qed.

(** The total check of [createOrder] passes exactly on the counted sum. *)
Lemma total_check items total :
  truthy total = true ->
  strict_eq (JNum (calculatedTotal items)) total = true <-> total = JNum (counted_sum items).
Proof.
  intros Ht. rewrite calculatedTotal_counted. split.
  - intros H. symmetry. now apply strict_eq_eq.
  - intros ->. now apply strict_eq_refl.
Qed.

Lemma bad_address_field_spec address field :
  bad_address_field address field = false <->
  exists s, get address field = JStr s /\ s <> EmptyString.
Proof.
  unfold bad_address_field. split.
  - intros H. apply orb_false_iff in H as [Ht Hs].
    destruct (get address field) as [| | | |s]; simpl in *; try discriminate.
    exists s. split; [reflexivity|]. intros ->. discriminate.
  - intros (s & -> & Hs). simpl.
    destruct (String.eqb s EmptyString) eqn:E; [|reflexivity].
    apply String.eqb_eq in E. contradiction.
Qed.

Lemma find_bad_none address :
  well_addressed address ->
  find (bad_address_field address) requiredAddressFields = None.
Proof.
  intros Hw. destruct (find _ _) as [field|] eqn:E; [|reflexivity].
  apply find_some in E as [Hin Hbad].
  apply Hw, bad_address_field_spec in Hin. congruence.
Qed.

Lemma find_bad_some address field :
  In field requiredAddressFields ->
  (forall s, get address field = JStr s -> s = EmptyString) ->
  exists field', find (bad_address_field address) requiredAddressFields = Some field'.
Proof.
  intros Hin Hbad. destruct (find _ _) as [field'|] eqn:E; [eauto|].
  exfalso. pose proof (find_none _ _ E field Hin) as Hok.
  apply bad_address_field_spec in Hok as (s & Hs & Hne). auto.
Qed.

(** What [saveOrderToDatabase] does when the store accepts the insert. *)
Lemma saveOrderToDatabase_saved E d w insertedId :
  inserts E d w insertedId ->
  saveOrderToDatabase E d w = (Returns insertedId, saved E d w).
Proof.
  intros [Hdb Hins].
  unfold saveOrderToDatabase, getDb, bind, emit, read, call, store, ret. simpl.
  change {| orders := orders w; trace := trace w ++ [EvSaveOrder d] |} with (announced d w).
  rewrite Hdb.
  change {| orderData := d; createdAt := now E (announced d w) |} with (document E d w).
  now rewrite Hins.
Qed.

(** In every case it announces the insert and stores at most the document. *)
Lemma saveOrderToDatabase_cases E d w :
  (exists insertedId, saveOrderToDatabase E d w = (Returns insertedId, saved E d w))
  \/ (snd (saveOrderToDatabase E d w) = announced d w /\
      forall insertedId, fst (saveOrderToDatabase E d w) <> Returns insertedId).
Proof.
  destruct (db E (announced d w)) eqn:Hdb.
  - destruct (insertOne E (document E d w) (announced d w)) as [i|msg|] eqn:H.
    + left. exists i. apply saveOrderToDatabase_saved. now split.
    + right. unfold saveOrderToDatabase, getDb, bind, emit, read, call, store, ret. simpl.
      change {| orders := orders w; trace := trace w ++ [EvSaveOrder d] |}
        with (announced d w).
      rewrite Hdb.
      change {| orderData := d; createdAt := now E (announced d w) |} with (document E d w).
      rewrite H. simpl. split; [reflexivity | discriminate].
    + right. unfold saveOrderToDatabase, getDb, bind, emit, read, call, store, ret. simpl.
      change {| orders := orders w; trace := trace w ++ [EvSaveOrder d] |}
        with (announced d w).
      rewrite Hdb.
      change {| orderData := d; createdAt := now E (announced d w) |} with (document E d w).
      rewrite H. simpl. split; [reflexivity | discriminate].
  - right. unfold saveOrderToDatabase, getDb, bind, emit, read, raise, ret. simpl.
    change {| orders := orders w; trace := trace w ++ [EvSaveOrder d] |}
      with (announced d w).
    rewrite Hdb. simpl. split; [reflexivity | discriminate].
Qed.

(** A handler body [try { id = await save(d); k(id) } catch { h }] whose
    continuation and handler only notify: it stores the document or
    nothing, and every notification call comes after the insert. *)
Lemma persist_then {A} E d (k : string -> M A) (h : string -> M A) w :
  (forall i, quiet (k i)) -> (forall msg, quiet (h msg)) ->
  let w' := snd (try_catch (bind (saveOrderToDatabase E d) k) h w) in
  (store_accepts E d w -> orders w' = orders w ++ [document E d w]) /\
  (orders w' = orders w \/ orders w' = orders w ++ [document E d w]) /\
  exists evs, trace w' = trace w ++ EvSaveOrder d :: evs /\
              Forall (fun e => is_notification e = true) evs.
Proof.
  intros Hk Hh. simpl.
  destruct (saveOrderToDatabase_cases E d w) as [(i & Hs) | (Hs & Hno)].
  - set (w1 := saved E d w) in *.
    assert (Heq : try_catch (bind (saveOrderToDatabase E d) k) h w
                  = try_catch (k i) h w1)
      by (unfold try_catch, bind; now rewrite Hs).
    rewrite Heq.
    destruct (Effects.quiet_try (k i) h (Hk i) Hh w1) as [Ho (evs & Ht & Hf)].
    rewrite Ho, Ht. simpl. repeat split; auto.
    exists evs. now rewrite <- app_assoc.
  - assert (Hrefused : ~ store_accepts E d w).
    { intros (i & Hi). apply (Hno i).
      now rewrite (saveOrderToDatabase_saved E d w i Hi). }
    destruct (saveOrderToDatabase E d w) as [r w1] eqn:Es. simpl in Hs, Hno. subst w1.
    assert (Hn : notified (announced d w)
                   (snd (try_catch (bind (saveOrderToDatabase E d) k) h w))).
    { unfold try_catch, bind. rewrite Es.
      destruct r as [i|msg|]; simpl.
      - exfalso. now apply (Hno i).
      - apply Hh.
      - apply Effects.notified_refl. }
    destruct Hn as [Ho (evs & Ht & Hf)].
    rewrite Ho, Ht. simpl. repeat split; auto; [contradiction|].
    exists evs. now rewrite <- app_assoc.
Qed.

Lemma flip_ascii_changes k c : (k < 8)%nat -> flip_ascii k c <> c.
Proof.
  intros Hk. destruct c as [b0 b1 b2 b3 b4 b5 b6 b7].
  do 8 (destruct k as [|k];
        [simpl; intros [=]; match goal with H : negb ?b = ?b |- _ => now destruct b end|]).
  lia.
Qed.

Lemma flip_bit_changes s : forall i k,
  (i < String.length s)%nat -> (k < 8)%nat -> flip_bit i k s <> s.
Proof.
  induction s as [|c r IH]; intros i k Hi Hk; simpl in *; [lia|].
  destruct i as [|i].
  - intros [= H]. now apply (flip_ascii_changes k c).
  - intros [= H]. apply (IH i k); [lia | assumption | assumption].
Qed.

(** C3: for every HMAC function, secret, order id and payment id, the
    check of line 189 accepts the hex HMAC of the order id, a vertical
    bar and the payment id under the secret; it accepts no other
    string; in particular it rejects that signature with a single bit
    of a single character inverted. *)
Theorem signature_check_symmetric E razorpay_order_id razorpay_payment_id :
  let genuine :=
    hmac_sha256_hex E (RAZORPAY_KEY_SECRET E)
      (razorpay_order_id +:+ "|" +:+ razorpay_payment_id) in
  signature_matches E razorpay_order_id razorpay_payment_id genuine = true /\
  (forall signature,
     signature_matches E razorpay_order_id razorpay_payment_id signature = true <->
     signature = genuine) /\
  (forall i k, (i < String.length genuine)%nat -> (k < 8)%nat ->
     signature_matches E razorpay_order_id razorpay_payment_id (flip_bit i k genuine)
     = false).
Proof.
  cbv zeta. unfold signature_matches, generatedSignature.
  set (genuine := hmac_sha256_hex E (RAZORPAY_KEY_SECRET E)
                    (razorpay_order_id +:+ "|" +:+ razorpay_payment_id)).
  assert (Hiff : forall signature, String.eqb genuine signature = true <-> signature = genuine).
  { intros signature. rewrite String.eqb_eq. split; congruence. }
  split; [apply String.eqb_refl|]. split; [exact Hiff|].
  intros i k Hi Hk.
  destruct (String.eqb genuine (flip_bit i k genuine)) eqn:Heq; [|reflexivity].
  apply Hiff in Heq. now apply flip_bit_changes in Heq.
Qed.

Lemma signature_check_symmetric_witness :
  signature_matches Sample.E "order_1" "pay_1" (flip_bit 3 0 Sample.genuine) = false.
Proof.
  apply (proj2 (proj2 (signature_check_symmetric Sample.E "order_1" "pay_1")) 3%nat 0%nat);
    simpl; lia.
Defined.

(** A refused request is answered 400 before anything else happens. *)
Lemma createOrder_refused E body w :
  refused body ->
  exists msg,
    createOrder E body w = (Returns {| http_status := 400; json := JsonError msg |}, w).
Proof.
  intros Href. unfold createOrder, respond, ret.
  destruct (Body.items body) as [items|] eqn:Hi; [|eexists; reflexivity].
  destruct (Body.address body) as [address|] eqn:Ha; [|eexists; reflexivity].
  destruct (truthy (Body.paymentMethod body)) eqn:Hp; [|eexists; reflexivity].
  destruct (truthy (Body.total body)) eqn:Ht; [|eexists; reflexivity].
  cbn [negb orb].
  destruct (find (bad_address_field address) requiredAddressFields) eqn:Ef;
    [eexists; reflexivity|].
  destruct (strict_eq (JNum (calculatedTotal items)) (Body.total body)) eqn:Es;
    [|destruct (Body.total body); try rewrite Es; eexists; reflexivity].
  exfalso. apply total_check in Es; [|exact Ht].
  inversion Href as [b H|b H|b H|b H|b address' field H Hin Hbad|b items' H Hne];
    subst b; try congruence.
  assert (address' = address) by congruence. subst address'.
  destruct (find_bad_some _ _ Hin Hbad) as [f Hf]. congruence.
Qed.

(** C1: a request with a missing field, with a required address field
    that is not a non-empty string, or whose total differs from the sum
    of price times counted quantity, is answered 400 and the world is
    unchanged: no gateway call, nothing persisted. The sum is the one
    line 109 computes: in double arithmetic, product by product in the
    order of the items. *)
Theorem createOrder_rejects_invalid E body w :
  refused body ->
  exists msg,
    createOrder E body w = (Returns {| http_status := 400; json := JsonError msg |}, w).
Proof. apply createOrder_refused. Qed.

Lemma createOrder_rejects_invalid_witness :
  exists msg,
    createOrder Sample.E Sample.mismatch_body Sample.w0
    = (Returns {| http_status := 400; json := JsonError msg |}, Sample.w0).
Proof.
  apply (createOrder_rejects_invalid Sample.E Sample.mismatch_body Sample.w0).
  apply (refused_sum Sample.mismatch_body Sample.two_books); [reflexivity|].
  simpl. discriminate.
Defined.

(** With a quantity of 0 the total 500 differs from price times quantity,
    and the order is accepted and persisted. *)
Lemma createOrder_accepts_zero_quantity :
  price_times_quantity Sample.zero_quantity = Some 0%float /\
  Body.total Sample.zero_quantity_body = JNum 500 /\
  exists insertedId notifications w',
    createOrder Sample.E Sample.zero_quantity_body Sample.w0
    = (Returns {| http_status := 200;
                  json := JsonSaved "COD Order placed successfully"
                            insertedId notifications |}, w') /\
    length (orders w') = 1%nat.
Proof.
  split; [reflexivity|]. split; [reflexivity|].
  do 3 eexists. split; [vm_compute; reflexivity | reflexivity].
Qed.

Lemma persist_then_news {A} E d (k : string -> M A) (h : string -> M A) w
    (P : order_record -> Prop) :
  (forall i, quiet (k i)) -> (forall msg, quiet (h msg)) ->
  P (document E d w) ->
  exists news,
    orders (snd (try_catch (bind (saveOrderToDatabase E d) k) h w)) = orders w ++ news /\
    Forall P news.
Proof.
  intros Hk Hh HP.
  destruct (persist_then E d k h w Hk Hh) as (_ & [Ho|Ho] & _).
  - exists []. rewrite Ho, app_nil_r. split; [reflexivity | constructor].
  - exists [document E d w]. split; [exact Ho | repeat constructor; exact HP].
Qed.

(** Past its checks, [createOrder] with [cod] runs the save-and-notify block. *)
Lemma createOrder_cod E body items address :
  Body.items body = Some items ->
  Body.address body = Some address ->
  well_addressed address ->
  Body.paymentMethod body = JStr "cod" ->
  Body.total body = JNum (counted_sum items) ->
  truthy (Body.total body) = true ->
  createOrder E body =
    try_catch
      (bind (saveOrderToDatabase E
               (cod_order items address (JStr "cod") (JNum (counted_sum items))))
         (fun insertedId =>
            bind (sendNotifications E address items (JNum (counted_sum items))
                    (JStr "cod") JNull)
              (fun notifications =>
                 respond 200 (JsonSaved "COD Order placed successfully"
                                insertedId notifications))))
      (fun error_message =>
         respond 500 (JsonError ("Error creating order: " +:+ error_message))).
Proof.
  intros Hi Ha Hw Hp Ht Hnz. rewrite Ht in Hnz. unfold createOrder.
  rewrite Hi, Ha, Hp, Ht, (find_bad_none address Hw), calculatedTotal_counted.
  now rewrite Hnz, (strict_eq_refl _ Hnz).
Qed.

(** Past its checks, [createOrder] with [prepaid] asks the gateway for an
    order of a hundred times the total and stores nothing. *)
Lemma createOrder_prepaid E body items address w :
  Body.items body = Some items ->
  Body.address body = Some address ->
  well_addressed address ->
  Body.paymentMethod body = JStr "prepaid" ->
  Body.total body = JNum (counted_sum items) ->
  truthy (Body.total body) = true ->
  let receipt := "receipt_" +:+ decimal (now E w) in
  let amount := PrimFloat.mul (counted_sum items) 100 in
  let w' := {| orders := orders w; trace := trace w ++ [EvGatewayCreate amount receipt] |} in
  createOrder E body w =
    (match orders_create E amount receipt w' with
     | Returns order =>
         Returns {| http_status := 200;
                    json := JsonIntent (id order) (order_amount order)
                              (order_currency order) |}
     | Throws msg =>
         Returns {| http_status := 500;
                    json := JsonError ("Error creating order: " +:+ msg) |}
     | Pending => Pending
     end, w').
Proof.
  intros Hi Ha Hw Hp Ht Hnz. rewrite Ht in Hnz. cbv zeta. unfold createOrder.
  rewrite Hi, Ha, Hp, Ht, (find_bad_none address Hw), calculatedTotal_counted.
  rewrite Hnz, (strict_eq_refl _ Hnz).
  unfold try_catch, bind, read, emit, call, respond, ret. cbn.
  now destruct (orders_create E _ _ _).
Qed.

(** The continuation and the handler of a save-and-notify block only notify. *)
Ltac notifies :=
  intros;
  repeat first
    [ apply ServiceFacts.quiet_sendNotifications
    | apply Effects.quiet_respond
    | apply Effects.quiet_bind; [|intros ?] ].

(** C10: the sum the total is compared with counts a quantity that is
    absent, null or 0 as 1; it is computed in double arithmetic, product
    by product in the order of the items. A request whose total is that
    sum is not refused for its total: with [prepaid] the gateway is
    asked for the intent, with [cod] the order is handed to the store. *)
Theorem defaulted_quantity_passes E body w items address :
  Body.items body = Some items ->
  Body.address body = Some address ->
  well_addressed address ->
  truthy (Body.paymentMethod body) = true ->
  truthy (Body.total body) = true ->
  Body.total body = JNum (counted_sum items) ->
  calculatedTotal items = counted_sum items /\
  fst (createOrder E body w) <>
    Returns {| http_status := 400;
               json := JsonError "Total does not match the sum of item prices" |} /\
  (Body.paymentMethod body = JStr "prepaid" ->
     trace (snd (createOrder E body w)) =
       trace w ++ [EvGatewayCreate (PrimFloat.mul (counted_sum items) 100)
                     ("receipt_" +:+ decimal (now E w))]) /\
  (Body.paymentMethod body = JStr "cod" ->
     exists evs,
       trace (snd (createOrder E body w)) =
         trace w ++ EvSaveOrder (cod_order items address (JStr "cod")
                                   (JNum (counted_sum items))) :: evs).
Proof.
  intros Hi Ha Hw Hp Ht Hs.
  pose proof Ht as Hnz.
  split; [apply calculatedTotal_counted|].
  split; [|split].
  - unfold createOrder.
    rewrite Hi, Ha, Hp, Ht, (find_bad_none address Hw), calculatedTotal_counted, Hs.
    rewrite Hs in Ht. rewrite (strict_eq_refl _ Ht). cbn [negb orb].
    unfold try_catch, bind, respond, ret.
    destruct (strict_eq (Body.paymentMethod body) (JStr "prepaid")).
    + unfold read, emit, call.
      destruct (orders_create E _ _ _) as [o|msg|]; simpl; discriminate.
    + destruct (strict_eq (Body.paymentMethod body) (JStr "cod")); [|discriminate].
      destruct (saveOrderToDatabase E _ w) as [[i|msg|] w1]; simpl; try discriminate.
      destruct (sendNotifications E _ _ _ _ _ w1) as [[n|msg|] w2]; simpl; discriminate.
  - intros Hpre.
    now rewrite (createOrder_prepaid E body items address w Hi Ha Hw Hpre Hs Hnz).
  - intros Hcod.
    rewrite (createOrder_cod E body items address Hi Ha Hw Hcod Hs Hnz).
    match goal with
    | |- context [try_catch (bind (saveOrderToDatabase E ?d) ?k) ?h w] =>
        destruct (persist_then E d k h w) as (_ & _ & evs & Ht' & _);
          [notifies | notifies | exists evs; exact Ht']
    end.
Qed.

Lemma sample_well_addressed : well_addressed Sample.address.
Proof.
  intros field Hin. simpl in Hin.
  repeat (destruct Hin as [<-|Hin];
          [eexists; split; [reflexivity | discriminate]|]).
  contradiction.
Defined.

Lemma defaulted_quantity_passes_witness :
  calculatedTotal Sample.no_quantity = 500%float /\
  fst (createOrder Sample.E Sample.no_quantity_body Sample.w0) <>
    Returns {| http_status := 400;
               json := JsonError "Total does not match the sum of item prices" |}.
Proof.
  destruct (defaulted_quantity_passes Sample.E Sample.no_quantity_body Sample.w0
              Sample.no_quantity Sample.address
              eq_refl eq_refl sample_well_addressed eq_refl eq_refl eq_refl)
    as (Hsum & Hpass & _).
  split; [exact Hsum | exact Hpass].
Defined.

(** The total 2^53 + 2 is the exact sum of the prices 2^53, 1 and 1 of
    three items without a quantity, each counted once; the sum line 109
    computes is 2^53, and the request is answered 400. *)
Lemma createOrder_refuses_the_exact_sum :
  exact_counted_sum Scenario.rounded_items = Some 9007199254740994%Z /\
  Body.total Scenario.rounded_body = JNum 9007199254740994 /\
  integer_value 9007199254740994 = Some 9007199254740994%Z /\
  calculatedTotal Scenario.rounded_items = 9007199254740992%float /\
  createOrder Sample.E Scenario.rounded_body Sample.w0 =
    (Returns {| http_status := 400;
                json := JsonError "Total does not match the sum of item prices" |},
     Sample.w0).
Proof. repeat split; vm_compute; reflexivity. Qed.

Lemma given_truthy field s : given field = Some s -> field = Some s /\ s <> EmptyString.
Proof.
  unfold given. destruct field as [t|]; [|discriminate].
  destruct (String.eqb t EmptyString) eqn:Et; [discriminate|].
  intros [= ->]. split; [reflexivity|]. now apply String.eqb_neq.
Qed.

(** Past its checks, [verifyPayment] with the signature it recomputes runs
    the save-and-notify block. *)
Lemma verifyPayment_genuine E body oid pid sig items address :
  given (Body.razorpay_order_id body) = Some oid ->
  given (Body.razorpay_payment_id body) = Some pid ->
  given (Body.razorpay_signature body) = Some sig ->
  Body.items body = Some items ->
  Body.address body = Some address ->
  truthy (Body.total body) = true ->
  signature_matches E oid pid sig = true ->
  verifyPayment E body =
    try_catch
      (bind (saveOrderToDatabase E (prepaid_order items address (Body.total body) oid pid))
         (fun insertedId =>
            bind (sendNotifications E address items (Body.total body) (JStr "prepaid")
                    (JStr pid))
              (fun notifications =>
                 respond 200 (JsonSaved "Payment verified and order saved successfully"
                                insertedId notifications))))
      (fun error_message =>
         respond 500 (JsonError ("Error verifying payment: " +:+ error_message))).
Proof.
  intros Ho Hp Hs Hi Ha Ht Hm. unfold verifyPayment.
  now rewrite Ho, Hp, Hs, Hi, Ha, Ht, Hm.
Qed.

(** With any other signature it answers 400 and does nothing. *)
Lemma verifyPayment_forged E body w oid pid sig items address :
  given (Body.razorpay_order_id body) = Some oid ->
  given (Body.razorpay_payment_id body) = Some pid ->
  given (Body.razorpay_signature body) = Some sig ->
  Body.items body = Some items ->
  Body.address body = Some address ->
  truthy (Body.total body) = true ->
  signature_matches E oid pid sig = false ->
  verifyPayment E body w =
    (Returns {| http_status := 400; json := JsonError "Invalid payment signature" |}, w).
Proof.
  intros Ho Hp Hs Hi Ha Ht Hm. unfold verifyPayment.
  now rewrite Ho, Hp, Hs, Hi, Ha, Ht, Hm.
Qed.

(** C2: for a confirm-payment request that carries its fields, the order
    is persisted when the supplied signature is the recomputed one and
    the store accepts the insert, and only when it is the recomputed one;
    with any other signature the answer is 400 and the world is
    unchanged: no record, no notification. *)
Theorem verifyPayment_persists_iff_genuine E body w oid pid sig items address :
  given (Body.razorpay_order_id body) = Some oid ->
  given (Body.razorpay_payment_id body) = Some pid ->
  given (Body.razorpay_signature body) = Some sig ->
  Body.items body = Some items ->
  Body.address body = Some address ->
  truthy (Body.total body) = true ->
  let d := prepaid_order items address (Body.total body) oid pid in
  let w' := snd (verifyPayment E body w) in
  (sig = generatedSignature E oid pid -> store_accepts E d w ->
     orders w' = orders w ++ [document E d w]) /\
  (orders w' <> orders w -> sig = generatedSignature E oid pid) /\
  (sig <> generatedSignature E oid pid ->
     verifyPayment E body w =
       (Returns {| http_status := 400; json := JsonError "Invalid payment signature" |},
        w)).
Proof.
  intros Ho Hp Hs Hi Ha Ht. simpl.
  assert (Hforged : sig <> generatedSignature E oid pid ->
            verifyPayment E body w =
              (Returns {| http_status := 400;
                          json := JsonError "Invalid payment signature" |}, w)).
  { intros Hne. apply (verifyPayment_forged E body w oid pid sig items address); auto.
    unfold signature_matches. apply String.eqb_neq. congruence. }
  split; [|split; [|exact Hforged]].
  - intros -> Hstore.
    rewrite (verifyPayment_genuine E body oid pid _ items address Ho Hp Hs Hi Ha Ht)
      by apply String.eqb_refl.
    match goal with
    | |- context [try_catch (bind (saveOrderToDatabase E ?d) ?k) ?h w] =>
        destruct (persist_then E d k h w) as (Hacc & _); [notifies | notifies |]
    end.
    now apply Hacc.
  - intros Hchanged.
    destruct (String.eqb_spec sig (generatedSignature E oid pid)) as [Heq|Hne];
      [exact Heq|].
    exfalso. apply Hchanged. now rewrite (Hforged Hne).
Qed.

Lemma verifyPayment_persists_iff_genuine_witness :
  orders (snd (verifyPayment Sample.E (Sample.confirm_body Sample.genuine) Sample.w0))
  = [document Sample.E Sample.confirmed_data Sample.w0] /\
  verifyPayment Sample.E (Sample.confirm_body "forged") Sample.w0
  = (Returns {| http_status := 400; json := JsonError "Invalid payment signature" |},
     Sample.w0).
Proof.
  split.
  - apply (proj1 (verifyPayment_persists_iff_genuine Sample.E
                    (Sample.confirm_body Sample.genuine) Sample.w0
                    "order_1" "pay_1" Sample.genuine Sample.two_books Sample.address
                    eq_refl eq_refl eq_refl eq_refl eq_refl eq_refl)).
    + reflexivity.
    + exists "oid_0". split; reflexivity.
  - apply (proj2 (proj2 (verifyPayment_persists_iff_genuine Sample.E
                    (Sample.confirm_body "forged") Sample.w0
                    "order_1" "pay_1" "forged" Sample.two_books Sample.address
                    eq_refl eq_refl eq_refl eq_refl eq_refl eq_refl))).
    discriminate.
Defined.

(** C5: for a valid cash-on-delivery request, in a responsive process
    whose store accepts the insert, the order is persisted with status
    confirmed and a null payment id, the three sends follow the insert,
    and the answer is 200 with the inserted id and a report of three
    entries: admin, customer and sms. *)
Theorem cod_order_persisted_then_notified E body w items address insertedId :
  Body.items body = Some items ->
  Body.address body = Some address ->
  well_addressed address ->
  Body.paymentMethod body = JStr "cod" ->
  Body.total body = JNum (counted_sum items) ->
  truthy (Body.total body) = true ->
  responsive E ->
  let total := JNum (counted_sum items) in
  let d := cod_order items address (JStr "cod") total in
  inserts E d w insertedId ->
  exists n w',
    createOrder E body w =
      (Returns {| http_status := 200;
                  json := JsonSaved "COD Order placed successfully" insertedId n |}, w') /\
    orders w' = orders w ++ [document E d w] /\
    OrderData.status d = JStr "confirmed" /\
    OrderData.paymentId d = JNull /\
    (exists evs1 evs2 evs3,
       trace w' = trace w ++ EvSaveOrder d
         :: EvWhatsApp (JStr "919301680755")
              (generateAdminMessage address items total (JStr "cod") JNull) :: evs1
         ++ EvWhatsApp (get address "phone")
              (generateCustomerMessage address total (JStr "cod")) :: evs2
         ++ EvSms (get address "phone")
              (generateCustomerMessage address total (JStr "cod")) :: evs3) /\
    (exists admin customer sms,
       n = [("admin", admin); ("customer", customer); ("sms", sms)]).
Proof.
  intros Hi Ha Hw Hp Ht Hnz HE. cbv zeta. intros Hins.
  destruct (ServiceFacts.sendNotifications_resolves E address items
              (JNum (counted_sum items)) (JStr "cod") JNull
              (saved E (cod_order items address (JStr "cod") (JNum (counted_sum items))) w)
              HE) as (n & w' & Hnot).
  exists n, w'. split.
  - rewrite (createOrder_cod E body items address Hi Ha Hw Hp Ht Hnz).
    unfold try_catch, bind.
    rewrite (saveOrderToDatabase_saved E _ w insertedId Hins).
    now rewrite Hnot.
  - destruct (ServiceFacts.sendNotifications_returns _ _ _ _ _ _ _ _ _ Hnot)
      as ((ra & rc & rs & Hn) & Ho & evs1 & evs2 & evs3 & Htr).
    split; [exact Ho|]. split; [reflexivity|]. split; [reflexivity|].
    split; [|eauto].
    exists evs1, evs2, evs3. rewrite Htr. simpl. now rewrite <- app_assoc.
Qed.

Lemma sample_responsive : responsive Sample.E.
Proof. constructor; intros; simpl; solve [discriminate | reflexivity]. Defined.

Lemma cod_order_persisted_then_notified_witness :
  exists n w',
    createOrder Sample.E Sample.cod_body Sample.w0 =
      (Returns {| http_status := 200;
                  json := JsonSaved "COD Order placed successfully" "oid_0" n |}, w') /\
    orders w' = [document Sample.E
                   (cod_order Sample.two_books Sample.address (JStr "cod") (JNum 500))
                   Sample.w0] /\
    exists admin customer sms,
      n = [("admin", admin); ("customer", customer); ("sms", sms)].
Proof.
  destruct (cod_order_persisted_then_notified Sample.E Sample.cod_body Sample.w0
              Sample.two_books Sample.address "oid_0"
              eq_refl eq_refl sample_well_addressed eq_refl eq_refl)
    as (n & w' & Hr & Ho & _ & _ & _ & Hn).
  - reflexivity.
  - exact sample_responsive.
  - split; reflexivity.
  - exists n, w'. split; [exact Hr|]. split; [exact Ho | exact Hn].
Defined.

(** The report [createOrder] returns for a cash-on-delivery order has
    three entries, not two. *)
Lemma cod_report_has_three_entries :
  exists w',
    createOrder Sample.E Sample.cod_body Sample.w0 =
      (Returns {| http_status := 200;
                  json := JsonSaved "COD Order placed successfully" "oid_0"
                            [("admin", "Sent"); ("customer", "Sent"); ("sms", "Sent")] |},
       w') /\
    length [("admin", "Sent"); ("customer", "Sent"); ("sms", "Sent")] <> 2%nat.
Proof. eexists. split; [vm_compute; reflexivity | discriminate]. Qed.

(** An answer given before the store is reached inserts nothing. *)
Ltac nothing_inserted :=
  exists []; rewrite app_nil_r; split; [reflexivity | constructor].

Ltac save_and_notify E w :=
  match goal with
  | |- context [try_catch (bind (saveOrderToDatabase E ?d) ?k) ?h w] =>
      apply (persist_then_news E d k h w); [notifies | notifies |]
  end.

Lemma createOrder_inserts E body w :
  exists news,
    orders (snd (createOrder E body w)) = orders w ++ news /\
    Forall (inserted_ok CreateOrder) news.
Proof.
  unfold createOrder.
  destruct (Body.items body) as [items|]; [|nothing_inserted].
  destruct (Body.address body) as [address|]; [|nothing_inserted].
  destruct (negb (truthy (Body.paymentMethod body))) eqn:Hp; [nothing_inserted|].
  destruct (truthy (Body.total body)) eqn:Ht; [|nothing_inserted].
  cbn [negb orb].
  destruct (find (bad_address_field address) requiredAddressFields);
    [nothing_inserted|].
  destruct (strict_eq (JNum (calculatedTotal items)) (Body.total body)) eqn:Es;
    [|destruct (Body.total body); try rewrite Es; nothing_inserted].
  apply total_check in Es; [|exact Ht]. rewrite Es in *.
  cbn [negb].
  destruct (strict_eq (Body.paymentMethod body) (JStr "prepaid")).
  - unfold try_catch, bind, read, emit, call, respond, ret.
    destruct (orders_create E _ _ _) as [o|msg|]; simpl; nothing_inserted.
  - destruct (strict_eq (Body.paymentMethod body) (JStr "cod")) eqn:Ec.
    + apply strict_eq_eq in Ec; [|reflexivity]. save_and_notify E w.
      simpl. unfold paymentId_invariant. simpl. rewrite Ec.
      repeat split; try discriminate; auto.
      intros [[=] _].
    + unfold try_catch, respond, ret. simpl. nothing_inserted.
Qed.

Lemma verifyPayment_inserts E body w :
  exists news,
    orders (snd (verifyPayment E body w)) = orders w ++ news /\
    Forall (inserted_ok VerifyPayment) news.
Proof.
  unfold verifyPayment.
  destruct (given (Body.razorpay_order_id body)) as [oid|]; [|nothing_inserted].
  destruct (given (Body.razorpay_payment_id body)) as [pid|]; [|nothing_inserted].
  destruct (given (Body.razorpay_signature body)) as [sig|]; [|nothing_inserted].
  destruct (Body.items body) as [items|]; [|nothing_inserted].
  destruct (Body.address body) as [address|]; [|nothing_inserted].
  destruct (negb (truthy (Body.total body))); [nothing_inserted|].
  destruct (signature_matches E oid pid sig).
  - save_and_notify E w.
    simpl. unfold paymentId_invariant. simpl. repeat split; auto.
  - unfold try_catch, respond, ret. simpl. nothing_inserted.
Qed.

Lemma saveOrder_inserts E body w :
  exists news,
    orders (snd (saveOrder E body w)) = orders w ++ news /\
    Forall (inserted_ok SaveOrder) news.
Proof.
  unfold saveOrder.
  destruct (Body.items body) as [items|]; [|nothing_inserted].
  destruct (Body.address body) as [address|]; [|nothing_inserted].
  destruct (negb (truthy (Body.paymentMethod body)) || negb (truthy (Body.total body))
            || negb (truthy (Body.status body))); [nothing_inserted|].
  destruct (negb (truthy (get address "phone")) || negb (is_string (get address "phone")));
    [nothing_inserted|].
  save_and_notify E w.
  simpl.
  destruct (strict_eq (Body.paymentMethod body) (JStr "prepaid")) eqn:Ep.
  - intros _. now apply strict_eq_eq in Ep.
  - discriminate.
Qed.

(** C6: every document [createOrder] or [verifyPayment] inserts has the
    status confirmed and carries a payment id exactly when its payment
    method is prepaid; a document [createOrder] inserts has the counted
    sum as its total (the sum line 109 computes, in double arithmetic
    in the order of the items), and [createOrder] compares the two
    before it does anything else; a document [saveOrder] inserts
    carries a payment id only when its payment method is prepaid. *)
Theorem inserted_documents_ok E op body w :
  (exists news,
     orders (snd (handle E op body w)) = orders w ++ news /\
     Forall (inserted_ok op) news) /\
  (forall items,
     Body.items body = Some items ->
     Body.total body <> JNum (counted_sum items) ->
     snd (createOrder E body w) = w).
Proof.
  split.
  - destruct op; simpl.
    + apply createOrder_inserts.
    + apply verifyPayment_inserts.
    + apply saveOrder_inserts.
  - intros items Hi Hne.
    destruct (createOrder_refused E body w (refused_sum body items Hi Hne)) as [msg H].
    now rewrite H.
Qed.

(** [saveOrder] inserts a pending prepaid order whose total is not the
    sum of its items: both invariants fail on the inserted document. *)
Lemma saveOrder_inserts_unchecked :
  orders (snd (saveOrder Sample.E Sample.legacy_body Sample.w0))
  = [{| orderData := Sample.legacy_data; createdAt := 1700000000000 |}] /\
  ~ paymentId_invariant Sample.legacy_data /\
  ~ total_invariant Sample.legacy_data.
Proof.
  split; [reflexivity|]. split.
  - unfold paymentId_invariant. simpl. intros [H _].
    destruct (H eq_refl) as [_ Hs]. discriminate.
  - unfold total_invariant. simpl. intros (s & [= <-] & [=]).
Qed.

End OrderFacts.

(** ** Phone numbers across the three send paths *)

Module NumberFacts.
Import Phone.

Lemma digits_never_start_with_plus s :
  all_digits s = true -> startsWith s "+" = false.
Proof.
  destruct s as [|c r]; [reflexivity|].
  intros Hd. simpl in Hd. apply andb_true_iff in Hd as [Hc _].
  change (startsWith (String c r) "+") with (if Ascii.eqb "+" c then true else false).
  destruct (Ascii.eqb "+" c) eqn:E; [|reflexivity].
  apply Ascii.eqb_eq in E. subst c. discriminate.
Qed.

Lemma starts_with_zero s :
  startsWith s "0" = true -> exists r, s = String "0" r.
Proof.
  destruct s as [|c r]; [discriminate|].
  change (startsWith (String c r) "0") with (if Ascii.eqb "0" c then true else false).
  destruct (Ascii.eqb "0" c) eqn:E; [|discriminate].
  apply Ascii.eqb_eq in E. subst c. eauto.
Qed.

Lemma longer_differs c (r : string) : String c r <> r.
Proof.
  intros H. apply (f_equal String.length) in H. simpl in H. lia.
Qed.

Lemma strip_app a b :
  strip_non_digits (a +:+ b) = strip_non_digits a +:+ strip_non_digits b.
Proof.
  induction a as [|c a IH]; simpl; [reflexivity|].
  destruct (is_digit c); simpl; now rewrite IH.
Qed.

(** X1: the SMS path and the chat path compute the same number exactly
    for the phone numbers whose digits do not begin with 0. *)
Theorem sms_and_chat_numbers_agree_iff p :
  sms_number p = whatsapp_number p <->
  startsWith (strip_non_digits p) "0" = false.
Proof.
  split; [|apply PhoneFacts.sms_number_agrees].
  intros Heq. destruct (startsWith (strip_non_digits p) "0") eqn:H0; [|reflexivity].
  exfalso. revert Heq. unfold sms_number, whatsapp_number.
  rewrite (digits_never_start_with_plus _ (PhoneFacts.strip_all_digits p)), H0.
  destruct (starts_with_zero _ H0) as [r ->].
  change (startsWith (String "0" r) "91") with false. cbn [negb andb substring_from].
  intros [= H]. now apply (longer_differs "0"%char r).
Qed.

(** X2: the number each path computes is made of digits and begins with
    91, the SMS path dials it behind a [+], and a phone number without
    any digit becomes 91. *)
Theorem numbers_carry_the_country_code p :
  all_digits (whatsapp_number p) = true /\
  startsWith (whatsapp_number p) "91" = true /\
  all_digits (sms_number p) = true /\
  startsWith (sms_number p) "91" = true /\
  sms_recipient p = String "+" (sms_number p) /\
  (strip_non_digits p = EmptyString ->
   whatsapp_number p = "91" /\ sms_recipient p = "+91").
Proof.
  destruct (PhoneFacts.whatsapp_number_shape p) as [Hd H91].
  split; [exact Hd|]. split; [exact H91|].
  pose proof (PhoneFacts.strip_all_digits p) as Hs.
  assert (Hsms : all_digits (sms_number p) = true /\
                 startsWith (sms_number p) "91" = true).
  { unfold sms_number.
    rewrite (digits_never_start_with_plus _ Hs).
    destruct (startsWith (strip_non_digits p) "91") eqn:E; cbn [negb andb]; auto. }
  destruct Hsms as [Hsd Hs91].
  split; [exact Hsd|]. split; [exact Hs91|]. split; [reflexivity|].
  intros He. unfold sms_recipient, sms_number, whatsapp_number. now rewrite He.
Qed.

(** X3: [sendMediaMessage] computes the number of the SMS path, so it
    messages the chat of the text path exactly when the digits do not
    begin with 0. *)
Theorem media_number_is_sms_number p :
  Media.media_number p = sms_number p /\
  (Media.media_number p = whatsapp_number p <->
   startsWith (strip_non_digits p) "0" = false).
Proof.
  assert (Hm : Media.media_number p = sms_number p).
  { unfold Media.media_number, sms_number.
    rewrite (digits_never_start_with_plus _ (PhoneFacts.strip_all_digits p)).
    now destruct (startsWith (strip_non_digits p) "91"). }
  split; [exact Hm|]. rewrite Hm.
  split; [|apply PhoneFacts.sms_number_agrees].
  intros Heq. destruct (startsWith (strip_non_digits p) "0") eqn:H0; [|reflexivity].
  exfalso. revert Heq. unfold sms_number, whatsapp_number.
  rewrite (digits_never_start_with_plus _ (PhoneFacts.strip_all_digits p)), H0.
  destruct (starts_with_zero _ H0) as [r ->].
  change (startsWith (String "0" r) "91") with false. cbn [negb andb substring_from].
  intros [= H]. now apply (longer_differs "0"%char r).
Qed.

(** X4: a character that is not a digit changes none of the three
    numbers, wherever it stands in the phone number. *)
Theorem numbers_ignore_formatting a c b :
  is_digit c = false ->
  whatsapp_number (a +:+ String c b) = whatsapp_number (a +:+ b) /\
  sms_number (a +:+ String c b) = sms_number (a +:+ b) /\
  Media.media_number (a +:+ String c b) = Media.media_number (a +:+ b).
Proof.
  intros Hc.
  assert (Hs : strip_non_digits (a +:+ String c b) = strip_non_digits (a +:+ b)).
  { rewrite !strip_app. simpl. now rewrite Hc. }
  unfold whatsapp_number, sms_number, Media.media_number. now rewrite Hs.
Qed.

Lemma numbers_ignore_formatting_witness :
  whatsapp_number "+91 93016-80755" = whatsapp_number "+91 9301680755".
Proof.
  apply (proj1 (numbers_ignore_formatting "+91 93016" "-"%char "80755" eq_refl)).
Defined.

End NumberFacts.

(** ** The send paths: what their results mean *)

Module SendFacts.

(** X5: [sendMessage] and [sendTextSMS] report success only when the
    transport call was made, to the number the path computes, and
    returned. *)
Theorem success_means_delivered E p m w r w' :
  (sendMessage E p m w = (Returns r, w') -> success r = true ->
   exists ph result,
     let chatId := Phone.chat_id (Phone.whatsapp_number ph) in
     let w1 := attempted (EvWhatsApp p m) w in
     p = JStr ph /\
     isRegisteredUser E chatId w1 = Returns true /\
     client_sendMessage E chatId m (attempted (EvWhatsAppDeliver chatId m) w1)
       = Returns result /\
     w' = attempted (EvWhatsAppDeliver chatId m) w1 /\
     phoneNumber r = Some (JStr (Phone.whatsapp_number ph))) /\
  (sendTextSMS E p m w = (Returns r, w') -> success r = true ->
   exists ph sid,
     let to := Phone.sms_recipient ph in
     let w1 := attempted (EvSms p m) w in
     p = JStr ph /\
     messages_create E to m (attempted (EvTwilioCreate to m) w1) = Returns sid /\
     w' = attempted (EvTwilioCreate to m) w1 /\
     messageId r = Some sid).
Proof.
  split.
  - unfold sendMessage, bind, try_catch, emit. cbn -[waitForReady].
    change {| orders := orders w; trace := trace w ++ [EvWhatsApp p m] |}
      with (attempted (EvWhatsApp p m) w).
    set (w1 := attempted (EvWhatsApp p m) w).
    destruct (ServiceFacts.waitForReady_cases E w1) as (r0 & -> & _).
    destruct r0 as [ready|?|]; unfold call, read, raise, ret; cbn;
      [| intros [= <- <-]; discriminate | discriminate].
    destruct (client E w1); cbn; [| intros [= <- <-]; discriminate].
    destruct p as [| | | |ph]; try (intros [= <- <-]; discriminate).
    destruct (isRegisteredUser E _ w1) as [[|]|?|] eqn:Hreg; cbn;
      try (intros [= <- <-]; discriminate); try discriminate.
    destruct (getChatById E _ w1) as [?|?|]; cbn; try discriminate.
    + destruct (client_sendMessage E _ m _) as [result|?|] eqn:Hsend; cbn;
        try (intros [= <- <-]; discriminate); try discriminate.
      intros [= <- <-] _. exists ph, result. cbn. repeat split; assumption.
    + destruct (client_sendMessage E _ m _) as [result|?|] eqn:Hsend; cbn;
        try (intros [= <- <-]; discriminate); try discriminate.
      intros [= <- <-] _. exists ph, result. cbn. repeat split; assumption.
  - unfold sendTextSMS, bind, try_catch, emit, call, raise, ret. cbn.
    change {| orders := orders w; trace := trace w ++ [EvSms p m] |}
      with (attempted (EvSms p m) w).
    set (w1 := attempted (EvSms p m) w).
    destruct (twilio E w1) as [[]|?|]; try discriminate.
    destruct p as [| | | |ph]; try (intros [= <- <-]; discriminate).
    destruct (messages_create E _ m _) as [sid|?|] eqn:Hcreate; cbn;
      try (intros [= <- <-]; discriminate); try discriminate.
    intros [= <- <-] _. exists ph, sid. cbn. repeat split; assumption.
Qed.

(** X6: [sendMessage] calls the transport at most once, and only for a
    string phone number that the transport reports as registered, with a
    client that is set; otherwise the only call recorded is the attempt. *)
Theorem messages_only_registered_numbers E p m w :
  let w1 := attempted (EvWhatsApp p m) w in
  snd (sendMessage E p m w) = w1 \/
  exists ph,
    let chatId := Phone.chat_id (Phone.whatsapp_number ph) in
    p = JStr ph /\
    client E w1 = true /\
    isRegisteredUser E chatId w1 = Returns true /\
    snd (sendMessage E p m w) = attempted (EvWhatsAppDeliver chatId m) w1.
Proof.
  unfold sendMessage, bind, try_catch, emit. cbn -[waitForReady].
  change {| orders := orders w; trace := trace w ++ [EvWhatsApp p m] |}
    with (attempted (EvWhatsApp p m) w).
  set (w1 := attempted (EvWhatsApp p m) w).
  destruct (ServiceFacts.waitForReady_cases E w1) as (r0 & -> & _).
  destruct r0 as [ready|?|]; unfold call, read, raise, ret; cbn; auto.
  destruct (client E w1) eqn:Hc; cbn; auto.
  destruct p as [| | | |ph]; auto.
  destruct (isRegisteredUser E _ w1) as [[|]|?|] eqn:Hreg; cbn; auto.
  destruct (getChatById E (Phone.chat_id (Phone.whatsapp_number ph)) w1) as [?|?|];
    cbn; auto;
    (right; exists ph; cbn; repeat split; try assumption;
     now destruct (client_sendMessage E _ m _) as [?|?|]).
Qed.

(** X7: once the session is ready and the number registered, a send the
    transport accepts is reported as sent whether or not the chat could
    be looked up, with the transport's id or, when it gives none, with
    an id made from the clock. *)
Theorem delivery_is_reported_with_an_id E ph m w result :
  let p := JStr ph in
  let chatId := Phone.chat_id (Phone.whatsapp_number ph) in
  let w1 := attempted (EvWhatsApp p m) w in
  let w2 := attempted (EvWhatsAppDeliver chatId m) w1 in
  isReady E 0 w1 = true ->
  client E w1 = true ->
  isRegisteredUser E chatId w1 = Returns true ->
  getChatById E chatId w1 <> Pending ->
  client_sendMessage E chatId m w2 = Returns result ->
  sendMessage E p m w =
    (Returns {| success := true;
                messageId := Some (match result with
                                   | Some i => i
                                   | None => "msg_" +:+ decimal (now E w2)
                                   end);
                error := None;
                phoneNumber := Some (JStr (Phone.whatsapp_number ph));
                provider := None |}, w2).
Proof.
  cbv zeta. intros Hready Hclient Hreg Hchat Hsend.
  unfold sendMessage, waitForReady, bind, try_catch, emit, call, read, raise, ret. cbn.
  change {| orders := orders w; trace := trace w ++ [EvWhatsApp (JStr ph) m] |}
    with (attempted (EvWhatsApp (JStr ph) m) w).
  rewrite Hready. cbn. rewrite Hclient. cbn. rewrite Hreg. cbn.
  destruct (getChatById E _ _) as [?|?|]; [| |contradiction]; cbn;
    change {| orders := orders w;
              trace := (trace w ++ [EvWhatsApp (JStr ph) m])
                       ++ [EvWhatsAppDeliver
                             (Phone.chat_id (Phone.whatsapp_number ph)) m] |}
      with (attempted (EvWhatsAppDeliver (Phone.chat_id (Phone.whatsapp_number ph)) m)
              (attempted (EvWhatsApp (JStr ph) m) w));
    now rewrite Hsend.
Qed.

Lemma delivery_is_reported_with_an_id_witness :
  sendMessage Sample.E (JStr "09301680755")
    (CustomerMessage Sample.address (JNum 500) (JStr "cod")) Sample.w0
  = (Returns {| success := true;
                messageId := Some "msg_1700000000000";
                error := None;
                phoneNumber := Some (JStr "919301680755");
                provider := None |},
     snd (sendMessage Sample.E (JStr "09301680755")
            (CustomerMessage Sample.address (JNum 500) (JStr "cod")) Sample.w0)).
Proof.
  apply (delivery_is_reported_with_an_id Sample.E "09301680755"
           (CustomerMessage Sample.address (JNum 500) (JStr "cod")) Sample.w0 None);
    try reflexivity.
  discriminate.
Defined.

Lemma poll_ready_misses E n : forall k w,
  (forall j, (k <= j < k + n)%nat -> isReady E j w = false) ->
  poll_ready E n k w = (Throws "WhatsApp client not ready after waiting", w).
Proof.
  induction n as [|n IH]; intros k w Hmiss; simpl; [reflexivity|].
  unfold bind, read. rewrite (Hmiss k) by lia.
  apply IH. intros j Hj. apply Hmiss. lia.
Qed.

(** X8: when the session is not ready, [sendMessage] never settles while
    the initialization promise is unsettled, fails with the rejection
    reason when it is rejected, and fails after thirty misses when it is
    resolved; in none of these cases does it call the transport. *)
Theorem send_to_unready_session E p m w :
  let w1 := attempted (EvWhatsApp p m) w in
  let failed reason :=
    {| success := false; messageId := None; error := Some reason;
       phoneNumber := Some p; provider := None |} in
  isReady E 0 w1 = false ->
  (initializationPromise E w1 = Pending -> sendMessage E p m w = (Pending, w1)) /\
  (forall reason,
     initializationPromise E w1 = Throws reason ->
     sendMessage E p m w = (Returns (failed reason), w1)) /\
  (initializationPromise E w1 = Returns tt ->
   (forall j, (1 <= j <= 30)%nat -> isReady E j w1 = false) ->
   sendMessage E p m w
   = (Returns (failed "WhatsApp client not ready after waiting"), w1)).
Proof.
  cbv zeta. set (w1 := attempted (EvWhatsApp p m) w). intros Hready.
  assert (Hwait : forall r,
            waitForReady E w1 = (r, w1) ->
            (forall ready, r <> Returns ready) ->
            sendMessage E p m w =
              (match r with
               | Throws reason =>
                   Returns {| success := false; messageId := None;
                              error := Some reason; phoneNumber := Some p;
                              provider := None |}
               | _ => Pending
               end, w1)).
  { intros r Hr Hnot. unfold sendMessage, bind, try_catch, emit. cbn -[waitForReady].
    change {| orders := orders w; trace := trace w ++ [EvWhatsApp p m] |} with w1.
    rewrite Hr. destruct r as [ready|reason|]; [|reflexivity|reflexivity].
    now destruct (Hnot ready). }
  split; [|split].
  - intros Hinit. apply (Hwait Pending); [|discriminate].
    unfold waitForReady, bind, read, call. now rewrite Hready, Hinit.
  - intros reason Hinit. apply (Hwait (Throws reason)); [|discriminate].
    unfold waitForReady, bind, read, call. now rewrite Hready, Hinit.
  - intros Hinit Hmiss.
    apply (Hwait (Throws "WhatsApp client not ready after waiting")); [|discriminate].
    unfold waitForReady, bind, read, call. rewrite Hready, Hinit.
    apply poll_ready_misses. intros j Hj. apply Hmiss. lia.
Qed.

Lemma send_to_unready_session_witness :
  sendMessage Scenario.E_starting (JStr "9301680755")
    (CustomerMessage Sample.address (JNum 500) (JStr "cod")) Sample.w0
  = (Pending,
     attempted (EvWhatsApp (JStr "9301680755")
                  (CustomerMessage Sample.address (JNum 500) (JStr "cod"))) Sample.w0)
  /\
  sendMessage Scenario.E_dropped (JStr "9301680755")
    (CustomerMessage Sample.address (JNum 500) (JStr "cod")) Sample.w0
  = (Returns {| success := false; messageId := None;
                error := Some "WhatsApp client not ready after waiting";
                phoneNumber := Some (JStr "9301680755"); provider := None |},
     attempted (EvWhatsApp (JStr "9301680755")
                  (CustomerMessage Sample.address (JNum 500) (JStr "cod"))) Sample.w0).
Proof.
  split.
  - apply (proj1 (send_to_unready_session Scenario.E_starting (JStr "9301680755")
                    (CustomerMessage Sample.address (JNum 500) (JStr "cod"))
                    Sample.w0 eq_refl)).
    reflexivity.
  - apply (proj2 (proj2 (send_to_unready_session Scenario.E_dropped (JStr "9301680755")
                    (CustomerMessage Sample.address (JNum 500) (JStr "cod"))
                    Sample.w0 eq_refl))).
    + reflexivity.
    + intros j Hj. reflexivity.
Defined.

End SendFacts.

(** ** The media path, the session and the database module *)

Module SessionFacts.

(** X9: when the transport answers a media send without a result,
    [sendMediaMessage] reports a failure, where [sendMessage] reports
    the send with an id of its own; and [sendMediaMessage] never raises. *)
Theorem media_send_needs_a_result E (media : Type)
    (fromFilePath : string -> world -> reply media)
    (client_sendMedia : string -> media -> string -> world -> reply (option (option string)))
    ph mediaPath caption file w :
  isReady E 0 w = true ->
  fromFilePath mediaPath w = Returns file ->
  client E w = true ->
  client_sendMedia (Phone.chat_id (Media.media_number ph)) file caption w = Returns None ->
  Media.sendMediaMessage E media fromFilePath client_sendMedia (JStr ph) mediaPath caption w
  = (Returns {| success := false; messageId := None;
                error := Some Media.null_result_error;
                phoneNumber := None; provider := None |}, w) /\
  never_throws
    (Media.sendMediaMessage E media fromFilePath client_sendMedia (JStr ph) mediaPath caption).
Proof.
  intros Hready Hfile Hclient Hsend. split.
  - unfold Media.sendMediaMessage, waitForReady, bind, try_catch, call, read, raise, ret.
    rewrite Hready. cbn. rewrite Hfile. cbn. rewrite Hclient. cbn. now rewrite Hsend.
  - unfold Media.sendMediaMessage. apply Effects.never_throws_try.
    intros msg. apply Effects.never_throws_ret.
Qed.

Lemma media_send_needs_a_result_witness :
  Media.sendMediaMessage Sample.E string (fun path _ => Returns path)
    (fun _ _ _ _ => Returns None) (JStr "9301680755") "cover.png" "Atlas" Sample.w0
  = (Returns {| success := false; messageId := None;
                error := Some Media.null_result_error;
                phoneNumber := None; provider := None |}, Sample.w0).
Proof.
  apply (proj1 (media_send_needs_a_result Sample.E string (fun path _ => Returns path)
                  (fun _ _ _ _ => Returns None) "9301680755" "cover.png" "Atlas"
                  "cover.png" Sample.w0 eq_refl eq_refl eq_refl eq_refl)).
Defined.

Lemma settled_after_event ev s :
  Session.initializationPromise s <> None ->
  Session.initializationPromise s <> Some Session.Unsettled ->
  Session.initializationPromise (Session.on ev s) = Session.initializationPromise s.
Proof.
  intros Hn Hu. destruct ev; simpl; try reflexivity;
    destruct (Session.initializationPromise s) as [[| |]|]; simpl; congruence.
Qed.

(** X10: in every state the service reaches, the initialization promise
    exists; when [isReady] is set the client is set and the promise is
    settled, so [getStatus] does not raise and gives the client's
    information exactly when the session is ready. *)
Theorem ready_session_has_a_client s :
  Session.reachable s ->
  Session.initializationPromise s <> None /\
  (Session.isReady s = true ->
   Session.client s = true /\
   Session.initializationPromise s <> Some Session.Unsettled) /\
  (forall user pushname,
     exists st, Session.getStatus user pushname s = Returns st /\
                Session.status_isReady st = Session.isReady s /\
                (Session.clientInfo st = None <-> Session.isReady s = false)).
Proof.
  intros Hr.
  assert (Hinv : Session.initializationPromise s <> None /\
                 (Session.isReady s = true ->
                  Session.client s = true /\
                  Session.initializationPromise s <> Some Session.Unsettled)).
  { induction Hr as [new_Client|ev s Hr [IHn IHr] Hc|client_destroy s Hr [IHn IHr]].
    - destruct new_Client; simpl; split; try discriminate.
    - destruct ev; simpl;
        (split;
         [ destruct (Session.initializationPromise s) as [[| |]|]; simpl; congruence
         | intros Hready;
           first
             [ discriminate
             | split; [exact Hc|];
               try (destruct (IHr Hready) as [_ Hset]);
               destruct (Session.initializationPromise s) as [[| |]|]; simpl; congruence ] ]).
    - unfold Session.destroy.
      destruct (Session.client s) eqn:Hc; [destruct client_destroy|]; simpl;
        (split; [exact IHn|]); intros Hready; try discriminate Hready;
        destruct (IHr Hready) as [Hcl Hset]; (split; [|exact Hset]); congruence. }
  destruct Hinv as [Hn Hready]. split; [exact Hn|]. split; [exact Hready|].
  intros user pushname. unfold Session.getStatus.
  destruct (Session.isReady s) eqn:Hi.
  - destruct (Hready eq_refl) as [-> _]. eexists. split; [reflexivity|].
    simpl. split; [reflexivity|]. split; discriminate.
  - eexists. split; [reflexivity|]. simpl. split; [reflexivity|]. now split.
Qed.

Lemma ready_session_has_a_client_witness :
  Session.initializationPromise Scenario.dropped <> None /\
  exists st, Session.getStatus (Some "919301680755") None Scenario.dropped = Returns st /\
             Session.clientInfo st = None.
Proof.
  destruct (ready_session_has_a_client Scenario.dropped) as (Hn & _ & Hs).
  - apply (Session.reachable_on (Session.Disconnected "NAVIGATION")
             (Session.on Session.Ready Scenario.starting)); [|reflexivity].
    apply (Session.reachable_on Session.Ready Scenario.starting); [|reflexivity].
    apply (Session.reachable_initialize None).
  - split; [exact Hn|].
    destruct (Hs (Some "919301680755") None) as (st & Hst & _ & Hinfo).
    exists st. split; [exact Hst|]. now apply Hinfo.
Defined.

Lemma settled_after_events evs : forall s,
  Session.initializationPromise s <> None ->
  Session.initializationPromise s <> Some Session.Unsettled ->
  Session.initializationPromise (Session.run evs s) = Session.initializationPromise s.
Proof.
  induction evs as [|ev evs IH]; intros s Hn Hu; [reflexivity|].
  unfold Session.run in *. simpl.
  pose proof (settled_after_event ev s Hn Hu) as He.
  rewrite IH; rewrite He; auto.
Qed.

(** X11: once the initialization promise is settled no event changes it,
    so no later send waits forever on it, whatever events follow. *)
Theorem settled_promise_is_final E s evs w :
  Session.initializationPromise s <> None ->
  Session.initializationPromise s <> Some Session.Unsettled ->
  Session.initializationPromise (Session.run evs s) = Session.initializationPromise s /\
  fst (waitForReady (frozen E (Session.run evs s)) w) <> Pending.
Proof.
  intros Hn Hu. pose proof (settled_after_events evs s Hn Hu) as He.
  split; [exact He|].
  destruct (ServiceFacts.waitForReady_cases (frozen E (Session.run evs s)) w)
    as (r & -> & Hr).
  apply Hr. simpl. rewrite He.
  destruct (Session.initializationPromise s) as [[| |]|]; congruence.
Qed.

Lemma settled_promise_is_final_witness :
  fst (waitForReady
         (frozen Sample.E
            (Session.run [Session.Disconnected "NAVIGATION"; Session.AuthFailure "x"]
               (Session.on Session.Ready Scenario.starting))) Sample.w0) <> Pending.
Proof.
  apply (proj2 (settled_promise_is_final Sample.E
                  (Session.on Session.Ready Scenario.starting)
                  [Session.Disconnected "NAVIGATION"; Session.AuthFailure "x"]
                  Sample.w0 ltac:(discriminate) ltac:(discriminate))).
Defined.

Lemma stays_down evs : forall s,
  Session.isReady s = false ->
  Forall (fun ev => ev <> Session.Ready) evs ->
  Session.isReady (Session.run evs s) = false.
Proof.
  induction evs as [|ev evs IH]; intros s Hs Hf; [exact Hs|].
  inversion Hf as [|? ? Hev Hrest]; subst.
  unfold Session.run in *. simpl. apply IH; [|exact Hrest].
  destruct ev; simpl; auto. congruence.
Qed.

(** X12: after a disconnect of a session whose initialization had
    resolved, the service stays not ready until the client reports ready
    again, and every wait for it fails after the thirty polls. *)
Theorem no_reconnect_after_disconnect E s reason evs w :
  Session.initializationPromise s = Some Session.Resolved ->
  Forall (fun ev => ev <> Session.Ready) evs ->
  let s' := Session.run (Session.Disconnected reason :: evs) s in
  Session.isReady s' = false /\
  waitForReady (frozen E s') w = (Throws "WhatsApp client not ready after waiting", w).
Proof.
  intros Hp Hf. cbv zeta.
  remember (Session.run (Session.Disconnected reason :: evs) s) as s' eqn:Hs'.
  assert (Hdown : Session.isReady s' = false).
  { subst s'. unfold Session.run. simpl. apply stays_down; [reflexivity | exact Hf]. }
  assert (Hres : Session.initializationPromise s' = Some Session.Resolved).
  { subst s'. rewrite settled_after_events; rewrite Hp; congruence. }
  split; [exact Hdown|].
  unfold waitForReady, bind, read, call. cbn -[poll_ready]. rewrite Hdown, Hres.
  apply SendFacts.poll_ready_misses. intros j _. exact Hdown.
Qed.

Lemma no_reconnect_after_disconnect_witness :
  waitForReady (frozen Sample.E Scenario.dropped) Sample.w0
  = (Throws "WhatsApp client not ready after waiting", Sample.w0).
Proof.
  apply (proj2 (no_reconnect_after_disconnect Sample.E
                  (Session.on Session.Ready Scenario.starting) "NAVIGATION" []
                  Sample.w0 eq_refl ltac:(constructor))).
Defined.

End SessionFacts.

(** ** The retry loop and the database module *)

Module RetryFacts.
Import Session.

Lemma retry_from_bounds init maxRetries delay fuel : forall i,
  (length (List.filter is_attempt (fst (retry_from init maxRetries delay fuel i))) <= fuel)%nat /\
  (forall j, In (Attempt j) (fst (retry_from init maxRetries delay fuel i)) ->
             (i <= j < maxRetries)%nat) /\
  (forall j, In (ClearSession j) (fst (retry_from init maxRetries delay fuel i)) ->
             (i <= j)%nat /\ (0 < j)%nat /\ (S j < maxRetries)%nat /\
             exists e, init j = Throws e).
Proof.
  induction fuel as [|fuel IH]; intros i; simpl.
  - repeat split; try lia; contradiction.
  - destruct (Nat.ltb i maxRetries) eqn:Hlt; simpl;
      [|repeat split; try lia; contradiction].
    apply Nat.ltb_lt in Hlt.
    assert (Hone : forall r : reply unit,
              (length (List.filter is_attempt (fst ([Attempt i], r))) <= S fuel)%nat /\
              (forall j, In (Attempt j) (fst ([Attempt i], r)) -> (i <= j < maxRetries)%nat) /\
              (forall j, In (ClearSession j) (fst ([Attempt i], r)) ->
                 (i <= j)%nat /\ (0 < j)%nat /\ (S j < maxRetries)%nat /\
                 exists e, init j = Throws e)).
    { intros r. simpl. split; [lia|]. split.
      - intros j [[= <-]|[]]. lia.
      - intros j [[=]|[]]. }
    destruct (init i) as [u|e|] eqn:Hi; try apply Hone.
    destruct (Nat.eqb i (maxRetries - 1)) eqn:Heq; [apply Hone|].
    apply Nat.eqb_neq in Heq.
    destruct (IH (S i)) as (Hlen & Hatt & Hclr).
    destruct (retry_from init maxRetries delay fuel (S i)) as [steps r]. simpl in *.
    assert (Hf : List.filter is_attempt ((if Nat.ltb 0 i then [ClearSession i] else []) ++ steps)
                 = List.filter is_attempt steps)
      by (destruct (Nat.ltb 0 i); reflexivity).
    split; [rewrite Hf; lia|]. split.
    + intros j [[= <-]|[[=]|Hin]]; [lia|].
      apply in_app_or in Hin as [Hin|Hin].
      * destruct (Nat.ltb 0 i); simpl in Hin; [destruct Hin as [[=]|[]] | contradiction].
      * apply Hatt in Hin. lia.
    + intros j [[=]|[[=]|Hin]].
      apply in_app_or in Hin as [Hin|Hin].
      * destruct (Nat.ltb 0 i) eqn:H0; simpl in Hin; [|contradiction].
        destruct Hin as [[= <-]|[]]. apply Nat.ltb_lt in H0.
        repeat split; try lia. eauto.
      * apply Hclr in Hin as (? & ? & ? & ?). repeat split; try lia. assumption.
Qed.

(** X13: [initializeWithRetry] starts the client at most [maxRetries]
    times; it clears the saved session only after a failed attempt that
    is neither the first nor the last; with [maxRetries] 0 it does
    nothing and returns. *)
Theorem retry_is_bounded init maxRetries delay :
  let steps := fst (initializeWithRetry init maxRetries delay) in
  (length (List.filter is_attempt steps) <= maxRetries)%nat /\
  (forall j, In (Attempt j) steps -> (j < maxRetries)%nat) /\
  (forall j, In (ClearSession j) steps ->
     (0 < j)%nat /\ (S j < maxRetries)%nat /\ exists e, init j = Throws e) /\
  (maxRetries = 0%nat -> initializeWithRetry init maxRetries delay = ([], Returns tt)).
Proof.
  cbv zeta. unfold initializeWithRetry.
  destruct (retry_from_bounds init maxRetries delay maxRetries 0) as (Hlen & Hatt & Hclr).
  split; [exact Hlen|]. split; [|split].
  - intros j Hin. apply Hatt in Hin. lia.
  - intros j Hin. apply Hclr in Hin as (_ & ? & ? & ?). auto.
  - intros ->. reflexivity.
Qed.

Lemma retry_through_failures init maxRetries delay n : forall i fuel,
  (n < fuel)%nat -> (i + n < maxRetries)%nat ->
  (forall j, (i <= j < i + n)%nat -> exists e, init j = Throws e) ->
  retry_from init maxRetries delay fuel i =
    (flat_map (failed_iteration delay) (seq i n)
       ++ fst (retry_from init maxRetries delay (fuel - n) (i + n)),
     snd (retry_from init maxRetries delay (fuel - n) (i + n))).
Proof.
  induction n as [|n IH]; intros i fuel Hfuel Hmax Hfail.
  - rewrite Nat.sub_0_r, Nat.add_0_r. simpl.
    now destruct (retry_from init maxRetries delay fuel i).
  - destruct fuel as [|fuel]; [lia|].
    cbn [retry_from].
    assert (Hlt : Nat.ltb i maxRetries = true) by (apply Nat.ltb_lt; lia).
    rewrite Hlt.
    destruct (Hfail i) as [e He]; [lia|]. rewrite He.
    assert (Hne : Nat.eqb i (maxRetries - 1) = false) by (apply Nat.eqb_neq; lia).
    rewrite Hne.
    rewrite (IH (S i) fuel) by (try lia; intros j Hj; apply Hfail; lia).
    replace (S fuel - S n)%nat with (fuel - n)%nat by lia.
    replace (i + S n)%nat with (S i + n)%nat by lia.
    cbn [seq flat_map]. unfold failed_iteration at 2.
    cbn [app]. now rewrite <- app_assoc.
Qed.

(** X14: when the attempts before attempt [k] fail and attempt [k]
    succeeds, [initializeWithRetry] returns after exactly those attempts:
    each failed one is followed by the wait, and from the second failed
    one on by the clearing of the saved session. *)
Theorem retry_stops_at_first_success init maxRetries delay k :
  (k < maxRetries)%nat ->
  (forall j, (j < k)%nat -> exists e, init j = Throws e) ->
  init k = Returns tt ->
  initializeWithRetry init maxRetries delay =
    (flat_map (failed_iteration delay) (seq 0 k) ++ [Attempt k], Returns tt).
Proof.
  intros Hk Hfail Hok. unfold initializeWithRetry.
  rewrite (retry_through_failures init maxRetries delay k 0 maxRetries)
    by (try lia; intros j Hj; apply Hfail; lia).
  cbn [Nat.add].
  destruct (maxRetries - k)%nat as [|fuel] eqn:Hfuel; [lia|].
  cbn [retry_from].
  assert (Hlt : Nat.ltb k maxRetries = true) by (apply Nat.ltb_lt; lia).
  now rewrite Hlt, Hok.
Qed.

Lemma retry_stops_at_first_success_witness :
  initializeWithRetry Scenario.third_time 3 5000 =
    ([Attempt 0; Wait 5000; Attempt 1; Wait 5000; ClearSession 1; Attempt 2], Returns tt).
Proof.
  apply (retry_stops_at_first_success Scenario.third_time 3 5000 2); [lia| |reflexivity].
  intros [|[|j]] Hj; simpl; eauto. lia.
Defined.

(** X15: when every attempt fails, [initializeWithRetry] raises the error
    of the last one, after [maxRetries] attempts and without waiting or
    clearing the session after the last. *)
Theorem retry_gives_up_with_the_last_error init maxRetries delay (e : nat -> string) :
  (0 < maxRetries)%nat ->
  (forall j, (j < maxRetries)%nat -> init j = Throws (e j)) ->
  initializeWithRetry init maxRetries delay =
    (flat_map (failed_iteration delay) (seq 0 (maxRetries - 1))
       ++ [Attempt (maxRetries - 1)],
     Throws (e (maxRetries - 1)%nat)).
Proof.
  intros Hpos Hfail. unfold initializeWithRetry.
  rewrite (retry_through_failures init maxRetries delay (maxRetries - 1) 0 maxRetries)
    by (try lia; intros j Hj; exists (e j); apply Hfail; lia).
  cbn [Nat.add].
  replace (maxRetries - (maxRetries - 1))%nat with 1%nat by lia.
  cbn [retry_from].
  assert (Hlt : Nat.ltb (maxRetries - 1) maxRetries = true) by (apply Nat.ltb_lt; lia).
  rewrite Hlt, (Hfail (maxRetries - 1)%nat) by lia.
  now rewrite Nat.eqb_refl.
Qed.

Lemma retry_gives_up_with_the_last_error_witness :
  initializeWithRetry Scenario.never_starts 3 5000 =
    ([Attempt 0; Wait 5000; Attempt 1; Wait 5000; ClearSession 1; Attempt 2],
     Throws "attempt 2").
Proof.
  apply (retry_gives_up_with_the_last_error Scenario.never_starts 3 5000
           (fun i => "attempt " +:+ decimal (Z.of_nat i))); [lia|].
  intros j Hj. reflexivity.
Defined.

(** X16: [connectToDatabase] on the module as loaded. A missing or
    empty [MONGO_URI] raises before anything is set, and so does a
    constructor that throws. Otherwise the outcome follows
    [client.connect()]: when it completes the call returns and both
    [getDb] and [getClient] return; when it fails the process is left
    with [process.exit(1)], [db] unset; while it is pending [getDb]
    raises 'Database not connected' although [getClient] already
    returns. So [getDb] returns exactly when [client.connect()]
    completed. *)
Theorem getDb_needs_a_completed_connect MONGO_URI new_MongoClient connect :
  let o := fst (Db.connectToDatabase MONGO_URI new_MongoClient connect Db.loaded) in
  let s := snd (Db.connectToDatabase MONGO_URI new_MongoClient connect Db.loaded) in
  (given MONGO_URI = None ->
   o = Db.Raised "MONGO_URI environment variable is not defined" /\ s = Db.loaded) /\
  (forall uri error_message,
     given MONGO_URI = Some uri -> new_MongoClient = Some error_message ->
     o = Db.Raised error_message /\ s = Db.loaded) /\
  (forall uri,
     given MONGO_URI = Some uri -> new_MongoClient = None ->
     (connect = Returns tt ->
      o = Db.Done /\ Db.getDb s = Returns tt /\ Db.getClient s = Returns tt) /\
     (forall err,
        connect = Throws err ->
        o = Db.Exited 1 /\ Db.getDb s = Throws "Database not connected") /\
     (connect = Pending ->
      o = Db.Waiting /\ Db.getDb s = Throws "Database not connected" /\
      Db.getClient s = Returns tt)) /\
  (Db.getDb s = Returns tt <->
   (exists uri, given MONGO_URI = Some uri) /\ new_MongoClient = None /\
   connect = Returns tt).
Proof.
  cbv zeta. unfold Db.connectToDatabase.
  destruct (given MONGO_URI) as [uri|];
    [destruct new_MongoClient as [msg|]; [|destruct connect as [[]|msg|]]|];
    simpl; repeat split; intros;
    repeat match goal with
           | H : _ /\ _ |- _ => destruct H
           | H : exists _, _ |- _ => destruct H
           end;
    try discriminate; try congruence; eauto.
Qed.

End RetryFacts.

(** ** The handlers: answers and effects *)

Module HandlerFacts.
Import OrderFacts.

Lemma strict_eq_neq a s : a <> JStr s -> strict_eq a (JStr s) = false.
Proof.
  intros Hne. destruct a; simpl; try reflexivity.
  apply String.eqb_neq. congruence.
Qed.

(** When [saveOrderToDatabase] returns, the store has taken the document. *)
Lemma saveOrderToDatabase_returns E d w i w1 :
  saveOrderToDatabase E d w = (Returns i, w1) ->
  inserts E d w i /\ w1 = saved E d w.
Proof.
  unfold saveOrderToDatabase, getDb, bind, emit, read, call, store, raise, ret. simpl.
  change {| orders := orders w; trace := trace w ++ [EvSaveOrder d] |} with (announced d w).
  unfold inserts.
  destruct (db E (announced d w)); simpl; [|discriminate].
  change {| orderData := d; createdAt := now E (announced d w) |} with (document E d w).
  destruct (insertOne E (document E d w) (announced d w)) as [j|?|]; simpl;
    try discriminate.
  intros [= <- <-]. now split.
Qed.

(** Without a connected database it raises, having only announced the insert. *)
Lemma saveOrderToDatabase_without_db E d w :
  db E (announced d w) = false ->
  saveOrderToDatabase E d w = (Throws "Database not connected", announced d w).
Proof.
  intros Hdb.
  unfold saveOrderToDatabase, getDb, bind, emit, read, raise, ret. simpl.
  change {| orders := orders w; trace := trace w ++ [EvSaveOrder d] |} with (announced d w).
  now rewrite Hdb.
Qed.

(** The answer 200 of a save-and-notify block comes after the insert. *)
Lemma saved_block E d address items total paymentMethod paymentId msg0
    (h : string -> M response) w r w' :
  (forall e w0, exists b, h e w0 = (Returns {| http_status := 500; json := b |}, w0)) ->
  try_catch
    (bind (saveOrderToDatabase E d)
       (fun insertedId =>
          bind (sendNotifications E address items total paymentMethod paymentId)
            (fun notifications =>
               respond 200 (JsonSaved msg0 insertedId notifications))))
    h w = (Returns r, w') ->
  http_status r = 200 ->
  exists insertedId notifications,
    r = {| http_status := 200; json := JsonSaved msg0 insertedId notifications |} /\
    inserts E d w insertedId /\
    orders w' = orders w ++ [document E d w].
Proof.
  intros Hh. unfold try_catch, bind.
  destruct (saveOrderToDatabase E d w) as [[i|e|] w1] eqn:Hs.
  - apply saveOrderToDatabase_returns in Hs as [Hins ->].
    destruct (sendNotifications E address items total paymentMethod paymentId
                (saved E d w)) as [[n|e|] w2] eqn:Hn.
    + unfold respond, ret. intros [= <- <-] _. exists i, n.
      split; [reflexivity|]. split; [exact Hins|].
      destruct (Effects.quiet_step _ _ _ _
                  (ServiceFacts.quiet_sendNotifications E address items total
                     paymentMethod paymentId) Hn) as [Ho _].
      exact Ho.
    + destruct (Hh e w2) as [b ->]. intros [= <- <-]. discriminate.
    + discriminate.
  - destruct (Hh e w1) as [b ->]. intros [= <- <-]. discriminate.
  - discriminate.
Qed.

Ltac not_a_saved_answer :=
  unfold respond, ret; intros [= ? ?]; subst; discriminate.

(** X17: an answer 200 that carries an order id, from any of the three
    handlers, is given only after the store accepted the insert that
    returned that id, and the document is then among the stored orders. *)
Theorem saved_answer_means_stored E op body w msg insertedId notifications w' :
  handle E op body w =
    (Returns {| http_status := 200; json := JsonSaved msg insertedId notifications |}, w') ->
  exists d, inserts E d w insertedId /\ orders w' = orders w ++ [document E d w].
Proof.
  destruct op; simpl.
  - unfold createOrder.
    destruct (Body.items body) as [items|]; [|not_a_saved_answer].
    destruct (Body.address body) as [address|]; [|not_a_saved_answer].
    destruct (negb (truthy (Body.paymentMethod body)) || negb (truthy (Body.total body)));
      [not_a_saved_answer|].
    destruct (find (bad_address_field address) requiredAddressFields);
      [not_a_saved_answer|].
    destruct (Body.total body) as [| | |total_number|]; try not_a_saved_answer.
    destruct (negb (strict_eq (JNum (calculatedTotal items)) (JNum total_number)));
      [not_a_saved_answer|].
    destruct (strict_eq (Body.paymentMethod body) (JStr "prepaid")).
    + unfold try_catch, bind, read, emit, call, respond, ret.
      destruct (orders_create E _ _ _) as [o|e|]; simpl; intros [= ? ?]; discriminate.
    + destruct (strict_eq (Body.paymentMethod body) (JStr "cod")).
      * intros H. apply saved_block in H as (i & n & [= ? ? ?] & Hins & Ho); subst;
          [eauto | intros e w0; eexists; reflexivity | reflexivity].
      * unfold try_catch. not_a_saved_answer.
  - unfold verifyPayment.
    destruct (given (Body.razorpay_order_id body)) as [oid|]; [|not_a_saved_answer].
    destruct (given (Body.razorpay_payment_id body)) as [pid|]; [|not_a_saved_answer].
    destruct (given (Body.razorpay_signature body)) as [sig|]; [|not_a_saved_answer].
    destruct (Body.items body) as [items|]; [|not_a_saved_answer].
    destruct (Body.address body) as [address|]; [|not_a_saved_answer].
    destruct (negb (truthy (Body.total body))); [not_a_saved_answer|].
    destruct (signature_matches E oid pid sig).
    + intros H. apply saved_block in H as (i & n & [= ? ? ?] & Hins & Ho); subst;
        [eauto | intros e w0; eexists; reflexivity | reflexivity].
    + unfold try_catch. not_a_saved_answer.
  - unfold saveOrder.
    destruct (Body.items body) as [items|]; [|not_a_saved_answer].
    destruct (Body.address body) as [address|]; [|not_a_saved_answer].
    destruct (negb (truthy (Body.paymentMethod body)) || negb (truthy (Body.total body))
              || negb (truthy (Body.status body))); [not_a_saved_answer|].
    destruct (negb (truthy (get address "phone")) || negb (is_string (get address "phone")));
      [not_a_saved_answer|].
    intros H. apply saved_block in H as (i & n & [= ? ? ?] & Hins & Ho); subst;
      [eauto | intros e w0; eexists; reflexivity | reflexivity].
Qed.

Lemma saved_answer_means_stored_witness :
  exists d,
    inserts Sample.E d Sample.w0 "oid_0" /\
    orders (snd (createOrder Sample.E Sample.cod_body Sample.w0))
    = orders Sample.w0 ++ [document Sample.E d Sample.w0].
Proof.
  apply (saved_answer_means_stored Sample.E CreateOrder Sample.cod_body Sample.w0
           "COD Order placed successfully" "oid_0"
           [("admin", "Sent"); ("customer", "Sent"); ("sms", "Sent")]
           (snd (createOrder Sample.E Sample.cod_body Sample.w0))).
  vm_compute. reflexivity.
Defined.

(** A save-and-notify block without a connected database runs its handler
    on the error of [getDb], after the announcement alone. *)
Lemma block_without_db {A} E d (k : string -> M A) (h : string -> M A) w :
  db E (announced d w) = false ->
  try_catch (bind (saveOrderToDatabase E d) k) h w
  = h "Database not connected" (announced d w).
Proof.
  intros Hdb. unfold try_catch, bind.
  now rewrite (saveOrderToDatabase_without_db E d w Hdb).
Qed.

Ltac untouched w :=
  unfold respond, ret; simpl;
  split; [reflexivity|];
  split; [exists []; rewrite app_nil_r; split; [reflexivity | constructor]|];
  intros ? ? ?; discriminate.

Ltac announced_only d :=
  unfold respond, ret; simpl;
  split; [reflexivity|];
  split; [exists [EvSaveOrder d]; split; [reflexivity | repeat constructor]|];
  intros ? ? ?; discriminate.

(** X18: while the database is not connected no handler stores an order,
    calls a notification service or answers 200 with an order id; a
    valid cash-on-delivery order is answered 500 with the error of
    [getDb]. *)
Theorem nothing_without_database E op body w :
  (forall w0, db E w0 = false) ->
  let w' := snd (handle E op body w) in
  orders w' = orders w /\
  (exists evs, trace w' = trace w ++ evs /\
               Forall (fun e => is_notification e = false) evs) /\
  (forall msg insertedId notifications,
     fst (handle E op body w) <>
       Returns {| http_status := 200;
                  json := JsonSaved msg insertedId notifications |}) /\
  (forall items address,
     op = CreateOrder ->
     Body.items body = Some items ->
     Body.address body = Some address ->
     well_addressed address ->
     Body.paymentMethod body = JStr "cod" ->
     Body.total body = JNum (counted_sum items) ->
     truthy (Body.total body) = true ->
     fst (handle E op body w) =
       Returns {| http_status := 500;
                  json := JsonError "Error creating order: Database not connected" |}).
Proof.
  intros Hdb. cbv zeta.
  assert (Hmain : orders (snd (handle E op body w)) = orders w /\
                  (exists evs, trace (snd (handle E op body w)) = trace w ++ evs /\
                               Forall (fun e => is_notification e = false) evs) /\
                  (forall msg insertedId notifications,
                     fst (handle E op body w) <>
                       Returns {| http_status := 200;
                                  json := JsonSaved msg insertedId notifications |})).
  { destruct op; simpl.
    - unfold createOrder.
      destruct (Body.items body) as [items|]; [|untouched w].
      destruct (Body.address body) as [address|]; [|untouched w].
      destruct (negb (truthy (Body.paymentMethod body)) || negb (truthy (Body.total body)));
        [untouched w|].
      destruct (find (bad_address_field address) requiredAddressFields);
        [untouched w|].
      destruct (Body.total body) as [| | |total_number|]; try untouched w.
      destruct (negb (strict_eq (JNum (calculatedTotal items)) (JNum total_number)));
        [untouched w|].
      destruct (strict_eq (Body.paymentMethod body) (JStr "prepaid")).
      + unfold try_catch, bind, read, emit, call, respond, ret.
        destruct (orders_create E _ _ _) as [o|e|]; simpl;
          (split; [reflexivity|];
           split; [eexists [_]; split; [reflexivity | repeat constructor]|];
           intros ? ? ?; discriminate).
      + destruct (strict_eq (Body.paymentMethod body) (JStr "cod")).
        * rewrite block_without_db by apply Hdb.
          match goal with
          | |- context [announced ?d w] => announced_only d
          end.
        * unfold try_catch. untouched w.
    - unfold verifyPayment.
      destruct (given (Body.razorpay_order_id body)) as [oid|]; [|untouched w].
      destruct (given (Body.razorpay_payment_id body)) as [pid|]; [|untouched w].
      destruct (given (Body.razorpay_signature body)) as [sig|]; [|untouched w].
      destruct (Body.items body) as [items|]; [|untouched w].
      destruct (Body.address body) as [address|]; [|untouched w].
      destruct (negb (truthy (Body.total body))); [untouched w|].
      destruct (signature_matches E oid pid sig).
      + rewrite block_without_db by apply Hdb.
        match goal with
        | |- context [announced ?d w] => announced_only d
        end.
      + unfold try_catch. untouched w.
    - unfold saveOrder.
      destruct (Body.items body) as [items|]; [|untouched w].
      destruct (Body.address body) as [address|]; [|untouched w].
      destruct (negb (truthy (Body.paymentMethod body)) || negb (truthy (Body.total body))
                || negb (truthy (Body.status body))); [untouched w|].
      destruct (negb (truthy (get address "phone"))
                || negb (is_string (get address "phone"))); [untouched w|].
      rewrite block_without_db by apply Hdb.
      match goal with
      | |- context [announced ?d w] => announced_only d
      end. }
  destruct Hmain as (Ho & Ht & Hn).
  split; [exact Ho|]. split; [exact Ht|]. split; [exact Hn|].
  intros items address -> Hi Ha Hw Hp Htot Hnz. simpl.
  rewrite (createOrder_cod E body items address Hi Ha Hw Hp Htot Hnz).
  now rewrite block_without_db by apply Hdb.
Qed.

Lemma nothing_without_database_witness :
  fst (createOrder Scenario.E_no_db Sample.cod_body Sample.w0) =
    Returns {| http_status := 500;
               json := JsonError "Error creating order: Database not connected" |}.
Proof.
  apply (proj2 (proj2 (proj2 (nothing_without_database Scenario.E_no_db CreateOrder
                                Sample.cod_body Sample.w0 (fun _ => eq_refl))))
           Sample.two_books Sample.address
           eq_refl eq_refl eq_refl sample_well_addressed eq_refl eq_refl).
  reflexivity.
Defined.

(** X19: a valid prepaid request makes one call, to the gateway, for
    the double nearest to a hundred times the total (the product
    [total * 100] of line 118, rounded as every product of two doubles
    is); nothing is stored and nobody is notified. The answer is the
    gateway's order, or 500 with the gateway's error; it never comes
    while the gateway does not settle. *)
Theorem prepaid_order_only_asks_the_gateway E body w items address total :
  Body.items body = Some items ->
  Body.address body = Some address ->
  well_addressed address ->
  Body.paymentMethod body = JStr "prepaid" ->
  Body.total body = JNum total ->
  total = counted_sum items ->
  truthy (Body.total body) = true ->
  let receipt := "receipt_" +:+ decimal (now E w) in
  let amount := PrimFloat.mul total 100 in
  let w' := attempted (EvGatewayCreate amount receipt) w in
  snd (createOrder E body w) = w' /\
  (forall order,
     orders_create E amount receipt w' = Returns order ->
     fst (createOrder E body w) =
       Returns {| http_status := 200;
                  json := JsonIntent (id order) (order_amount order)
                            (order_currency order) |}) /\
  (forall msg,
     orders_create E amount receipt w' = Throws msg ->
     fst (createOrder E body w) =
       Returns {| http_status := 500;
                  json := JsonError ("Error creating order: " +:+ msg) |}) /\
  (orders_create E amount receipt w' = Pending ->
   fst (createOrder E body w) = Pending).
Proof.
  intros Hi Ha Hw Hp Ht -> Hnz. cbv zeta.
  rewrite (createOrder_prepaid E body items address w Hi Ha Hw Hp Ht Hnz).
  unfold attempted. simpl. split; [reflexivity|].
  split; [|split]; intros; match goal with H : orders_create _ _ _ _ = _ |- _ =>
    now rewrite H end.
Qed.

Lemma prepaid_order_only_asks_the_gateway_witness :
  createOrder Sample.E Scenario.prepaid_body Sample.w0 =
    (Returns {| http_status := 200; json := JsonIntent "order_1" 50000 "INR" |},
     attempted (EvGatewayCreate 50000 "receipt_1700000000000") Sample.w0) /\
  createOrder Sample.E Scenario.fractional_body Sample.w0 =
    (Returns {| http_status := 200;
                json := JsonIntent "order_1" 0x1.f3bffffffffffp+10 "INR" |},
     attempted (EvGatewayCreate 0x1.f3bffffffffffp+10 "receipt_1700000000000")
       Sample.w0) /\
  PrimFloat.ltb 0x1.f3bffffffffffp+10 1999 = true.
Proof.
  split; [|split; [|reflexivity]].
  - destruct (prepaid_order_only_asks_the_gateway Sample.E Scenario.prepaid_body
                Sample.w0 Sample.two_books Sample.address 500
                eq_refl eq_refl sample_well_addressed eq_refl eq_refl eq_refl eq_refl)
      as (Hw & Hok & _).
    rewrite (surjective_pairing (createOrder Sample.E Scenario.prepaid_body Sample.w0)).
    rewrite Hw. rewrite (Hok _ eq_refl). reflexivity.
  - destruct (prepaid_order_only_asks_the_gateway Sample.E Scenario.fractional_body
                Sample.w0 Scenario.fractional_items Sample.address 0x1.3fd70a3d70a3dp+4
                eq_refl eq_refl sample_well_addressed eq_refl eq_refl eq_refl eq_refl)
      as (Hw & Hok & _).
    rewrite (surjective_pairing (createOrder Sample.E Scenario.fractional_body Sample.w0)).
    rewrite Hw. rewrite (Hok _ eq_refl). reflexivity.
Defined.

(** X20: a request that passes the checks with a payment method other
    than prepaid and cod is answered 400 'Invalid payment method', and
    nothing is called or stored. *)
Theorem unknown_payment_method_is_refused E body w items address :
  Body.items body = Some items ->
  Body.address body = Some address ->
  well_addressed address ->
  truthy (Body.paymentMethod body) = true ->
  Body.paymentMethod body <> JStr "prepaid" ->
  Body.paymentMethod body <> JStr "cod" ->
  Body.total body = JNum (counted_sum items) ->
  truthy (Body.total body) = true ->
  createOrder E body w =
    (Returns {| http_status := 400; json := JsonError "Invalid payment method" |}, w).
Proof.
  intros Hi Ha Hw Hp Hnp Hnc Ht Hnz. rewrite Ht in Hnz. unfold createOrder.
  rewrite Hi, Ha, Hp, Ht, (find_bad_none address Hw), calculatedTotal_counted.
  rewrite Hnz, (strict_eq_refl _ Hnz). cbn [negb orb].
  rewrite (strict_eq_neq _ _ Hnp), (strict_eq_neq _ _ Hnc). reflexivity.
Qed.

Lemma unknown_payment_method_is_refused_witness :
  createOrder Sample.E Scenario.upi_body Sample.w0 =
    (Returns {| http_status := 400; json := JsonError "Invalid payment method" |},
     Sample.w0).
Proof.
  apply (unknown_payment_method_is_refused Sample.E Scenario.upi_body Sample.w0
           Sample.two_books Sample.address
           eq_refl eq_refl sample_well_addressed eq_refl);
    try discriminate; try reflexivity.
Defined.

(** X21: [createOrder] refuses every request whose list of items is
    empty, whatever its other fields. *)
Theorem empty_order_is_refused E body w :
  Body.items body = Some [] ->
  exists msg,
    createOrder E body w = (Returns {| http_status := 400; json := JsonError msg |}, w).
Proof.
  intros Hi. apply createOrder_refused.
  destruct (truthy (Body.total body)) eqn:Ht; [|now apply refused_total].
  apply (refused_sum body []); [exact Hi|].
  intros Hz. rewrite Hz in Ht. vm_compute in Ht. discriminate.
Qed.

Lemma empty_order_is_refused_witness :
  exists msg,
    createOrder Sample.E Scenario.empty_body Sample.w0
    = (Returns {| http_status := 400; json := JsonError msg |}, Sample.w0).
Proof.
  apply (empty_order_is_refused Sample.E Scenario.empty_body Sample.w0 eq_refl).
Defined.

Lemma find_first {A} (f : A -> bool) before x after :
  (forall y, In y before -> f y = false) -> f x = true ->
  find f (before ++ x :: after) = Some x.
Proof.
  induction before as [|y before IH]; intros Hb Hx; simpl.
  - now rewrite Hx.
  - rewrite (Hb y) by now left. apply IH; [|exact Hx].
    intros z Hz. apply Hb. now right.
Qed.

(** X22: when a required address field is not a non-empty string, the
    answer 400 of [createOrder] names the first such field, in the
    order fullName, street, city, state, zipCode, email, phone. *)
Theorem first_bad_address_field_is_named E body w items address before field after :
  Body.items body = Some items ->
  Body.address body = Some address ->
  truthy (Body.paymentMethod body) = true ->
  truthy (Body.total body) = true ->
  requiredAddressFields = before ++ field :: after ->
  (forall f, In f before -> exists s, get address f = JStr s /\ s <> EmptyString) ->
  (forall s, get address field = JStr s -> s = EmptyString) ->
  createOrder E body w =
    (Returns {| http_status := 400;
                json := JsonError ("Address field " +:+ dquote +:+ field +:+ dquote
                                   +:+ " is required and must be a string") |}, w).
Proof.
  intros Hi Ha Hp Ht Hfields Hgood Hbad. unfold createOrder.
  rewrite Hi, Ha, Hp, Ht. cbn [negb orb].
  rewrite Hfields, find_first; [reflexivity| |].
  - intros f Hf. now apply bad_address_field_spec, Hgood.
  - destruct (bad_address_field address field) eqn:Hf; [reflexivity|].
    apply bad_address_field_spec in Hf as (s & Hs & Hne).
    now apply Hbad in Hs.
Qed.

Lemma first_bad_address_field_is_named_witness :
  createOrder Sample.E Scenario.no_city_body Sample.w0 =
    (Returns {| http_status := 400;
                json := JsonError ("Address field " +:+ dquote +:+ "city" +:+ dquote
                                   +:+ " is required and must be a string") |},
     Sample.w0).
Proof.
  apply (first_bad_address_field_is_named Sample.E Scenario.no_city_body Sample.w0
           Sample.two_books (<["city" := JStr EmptyString]> Sample.address)
           ["fullName"; "street"] "city" ["state"; "zipCode"; "email"; "phone"]
           eq_refl eq_refl eq_refl eq_refl eq_refl).
  - intros f [<-|[<-|[]]]; eexists; (split; [reflexivity | discriminate]).
  - intros s [= <-]. reflexivity.
Defined.

(** X23: the sum [createOrder] compares the total with is rounded after
    every addition, so the check depends on the order of the items: of
    two requests with the same three items (prices 2^53, 1 and 1, no
    quantity) and the same total 2^53 + 2, which is the exact sum, the
    one that lists the large price first is answered 400 and the one
    that lists it last is handed to the store; and a total that is not
    the exact sum can pass: prices 2^53 and 1 with the total 2^53. *)
Theorem total_check_depends_on_item_order E w :
  Permutation Scenario.rounded_items Scenario.reordered_items /\
  exact_counted_sum Scenario.rounded_items = Some 9007199254740994%Z /\
  calculatedTotal Scenario.rounded_items = 9007199254740992%float /\
  calculatedTotal Scenario.reordered_items = 9007199254740994%float /\
  createOrder E Scenario.rounded_body w =
    (Returns {| http_status := 400;
                json := JsonError "Total does not match the sum of item prices" |}, w) /\
  (exists evs,
     trace (snd (createOrder E Scenario.reordered_body w)) =
       trace w ++ EvSaveOrder (cod_order Scenario.reordered_items Sample.address
                                 (JStr "cod") (JNum 9007199254740994)) :: evs) /\
  exact_counted_sum Scenario.absorbed_items = Some 9007199254740993%Z /\
  (exists evs,
     trace (snd (createOrder E Scenario.absorbed_body w)) =
       trace w ++ EvSaveOrder (cod_order Scenario.absorbed_items Sample.address
                                 (JStr "cod") (JNum 9007199254740992)) :: evs).
Proof.
  assert (Hpass : forall body items total,
            Body.items body = Some items ->
            Body.address body = Some Sample.address ->
            Body.paymentMethod body = JStr "cod" ->
            Body.total body = JNum total ->
            total = counted_sum items ->
            truthy (JNum total) = true ->
            exists evs,
              trace (snd (createOrder E body w)) =
                trace w ++ EvSaveOrder (cod_order items Sample.address (JStr "cod")
                                          (JNum total)) :: evs).
  { intros body items total Hi Ha Hp Ht -> Hnz. rewrite <- Ht in Hnz.
    rewrite (createOrder_cod E body items Sample.address Hi Ha sample_well_addressed
               Hp Ht Hnz).
    match goal with
    | |- context [try_catch (bind (saveOrderToDatabase E ?d) ?k) ?h w] =>
        destruct (persist_then E d k h w) as (_ & _ & evs & Ht' & _);
          [notifies | notifies | exists evs; exact Ht']
    end. }
  split; [exact (Permutation_cons_append _ _)|].
  split; [vm_compute; reflexivity|].
  split; [vm_compute; reflexivity|].
  split; [vm_compute; reflexivity|].
  split; [reflexivity|].
  split; [apply Hpass; reflexivity|].
  split; [vm_compute; reflexivity|].
  apply Hpass; reflexivity.
Qed.



(** X25: [verifyPayment] answers 400 before it looks at the signature
    when a gateway field is missing or empty, and, with the three gateway
    fields given, when the items, the address or the total is missing;
    in both cases nothing is stored or sent. *)
Theorem incomplete_confirmation_is_refused E body w :
  (given (Body.razorpay_order_id body) = None \/
   given (Body.razorpay_payment_id body) = None \/
   given (Body.razorpay_signature body) = None ->
   verifyPayment E body w =
     (Returns {| http_status := 400;
                 json := JsonError "Missing required fields for verification" |}, w)) /\
  (given (Body.razorpay_order_id body) <> None ->
   given (Body.razorpay_payment_id body) <> None ->
   given (Body.razorpay_signature body) <> None ->
   Body.items body = None \/ Body.address body = None \/
   truthy (Body.total body) = false ->
   verifyPayment E body w =
     (Returns {| http_status := 400;
                 json := JsonError "Missing order details for saving" |}, w)).
Proof.
  unfold verifyPayment, respond, ret. split.
  - intros [H|[H|H]]; rewrite H;
      repeat match goal with
             | |- context [match given ?x with _ => _ end] => destruct (given x)
             end; reflexivity.
  - intros Ho Hp Hs Hmiss.
    destruct (given (Body.razorpay_order_id body)); [|contradiction].
    destruct (given (Body.razorpay_payment_id body)); [|contradiction].
    destruct (given (Body.razorpay_signature body)); [|contradiction].
    destruct Hmiss as [H|[H|H]]; rewrite H;
      repeat match goal with
             | |- context [match Body.items body with _ => _ end] =>
                 destruct (Body.items body)
             | |- context [match Body.address body with _ => _ end] =>
                 destruct (Body.address body)
             end; reflexivity.
Qed.

Lemma incomplete_confirmation_is_refused_witness :
  verifyPayment Sample.E (Sample.confirm_body EmptyString) Sample.w0 =
    (Returns {| http_status := 400;
                json := JsonError "Missing required fields for verification" |},
     Sample.w0) /\
  verifyPayment Sample.E
    {| Body.items := None;
       Body.address := Some Sample.address;
       Body.paymentMethod := JUndefined;
       Body.total := JNum 500;
       Body.paymentId := JUndefined;
       Body.status := JUndefined;
       Body.razorpay_order_id := Some "order_1";
       Body.razorpay_payment_id := Some "pay_1";
       Body.razorpay_signature := Some Sample.genuine |} Sample.w0 =
    (Returns {| http_status := 400;
                json := JsonError "Missing order details for saving" |}, Sample.w0).
Proof.
  split.
  - apply (proj1 (incomplete_confirmation_is_refused Sample.E
                    (Sample.confirm_body EmptyString) Sample.w0)).
    right. right. reflexivity.
  - apply (proj2 (incomplete_confirmation_is_refused Sample.E _ Sample.w0));
      try discriminate.
    left. reflexivity.
Defined.

(** In a process whose chat transport settles, [sendMessage] resolves. *)
Lemma sendMessage_settles E p m w :
  chat_settles E -> exists r w', sendMessage E p m w = (Returns r, w').
Proof.
  intros [Hinit Hreg Hchat Hsend].
  unfold sendMessage, bind, try_catch, emit. cbn -[waitForReady].
  set (w1 := {| orders := orders w; trace := trace w ++ [EvWhatsApp p m] |}).
  destruct (ServiceFacts.waitForReady_cases E w1) as (r & -> & Hr).
  specialize (Hr (Hinit w1)).
  destruct r as [ready|?|]; [|unfold ret; eauto|contradiction].
  unfold call, read, raise, ret. cbn.
  destruct (client E w1); cbn; [|eauto].
  destruct p as [| | | |p]; eauto.
  pose proof (Hreg (Phone.chat_id (Phone.whatsapp_number p)) w1) as H2.
  destruct (isRegisteredUser E _ w1) as [[|]|?|]; cbn; [|eauto|eauto|contradiction].
  pose proof (Hchat (Phone.chat_id (Phone.whatsapp_number p)) w1) as H3.
  destruct (getChatById E _ w1) as [?|?|]; cbn; [| |contradiction];
    match goal with
    | |- context [client_sendMessage E ?c ?m ?w2] =>
        pose proof (Hsend c m w2) as H4; destruct (client_sendMessage E c m w2) as [?|?|]
    end; cbn; eauto; contradiction.
Qed.

(** When the Twilio constructor throws, the dispatch raises its error after
    the two chat sends. *)
Lemma sendNotifications_raises E address items total paymentMethod paymentId w msg :
  chat_settles E ->
  (forall w0, twilio E w0 = Throws msg) ->
  exists w', sendNotifications E address items total paymentMethod paymentId w
             = (Throws msg, w').
Proof.
  intros Hchat Htw. unfold sendNotifications, bind.
  destruct (sendMessage_settles E (JStr "919301680755")
              (generateAdminMessage address items total paymentMethod paymentId) w Hchat)
    as (ra & w1 & ->).
  destruct (sendMessage_settles E (get address "phone")
              (generateCustomerMessage address total paymentMethod) w1 Hchat)
    as (rc & w2 & ->).
  unfold sendTextSMS, bind, emit, call. simpl. rewrite Htw. eauto.
Qed.

Lemma saveOrder_block E body items address :
  legacy_valid body items address ->
  saveOrder E body =
    try_catch
      (bind (saveOrderToDatabase E (legacy_order body items address))
         (fun insertedId =>
            bind (sendNotifications E address items (Body.total body)
                    (Body.paymentMethod body) (Body.paymentId body))
              (fun notifications =>
                 respond 200 (JsonSaved "Order saved successfully"
                                insertedId notifications))))
      (fun _ => respond 500 (JsonError "Failed to save order to database")).
Proof.
  intros (Hi & Ha & Hp & Ht & Hs & phone & Hphone & Hne). unfold saveOrder.
  rewrite Hi, Ha, Hp, Ht, Hs, Hphone. cbn [negb orb truthy is_string].
  apply String.eqb_neq in Hne. now rewrite Hne.
Qed.

(** X26: when the Twilio constructor throws, [saveOrder] answers 500
    'Failed to save order to database' although the store accepted the
    insert and the order is stored. *)
Theorem notification_error_is_reported_as_save_failure
    E body w items address insertedId msg :
  legacy_valid body items address ->
  inserts E (legacy_order body items address) w insertedId ->
  chat_settles E ->
  (forall w0, twilio E w0 = Throws msg) ->
  exists w',
    saveOrder E body w =
      (Returns {| http_status := 500;
                  json := JsonError "Failed to save order to database" |}, w') /\
    orders w' = orders w ++ [document E (legacy_order body items address) w].
Proof.
  intros Hvalid Hins Hchat Htw.
  destruct (sendNotifications_raises E address items (Body.total body)
              (Body.paymentMethod body) (Body.paymentId body)
              (saved E (legacy_order body items address) w) msg Hchat Htw)
    as (w' & Hn).
  exists w'. rewrite (saveOrder_block E body items address Hvalid).
  unfold try_catch, bind.
  rewrite (saveOrderToDatabase_saved E _ w insertedId Hins), Hn.
  split; [reflexivity|].
  destruct (Effects.quiet_step _ _ _ _
              (ServiceFacts.quiet_sendNotifications E address items (Body.total body)
                 (Body.paymentMethod body) (Body.paymentId body)) Hn) as [Ho _].
  exact Ho.
Qed.

Lemma sample_chat_settles : chat_settles Sample.E_no_twilio.
Proof. constructor; intros; simpl; discriminate. Defined.

Lemma notification_error_is_reported_as_save_failure_witness :
  exists w',
    saveOrder Sample.E_no_twilio Sample.legacy_body Sample.w0 =
      (Returns {| http_status := 500;
                  json := JsonError "Failed to save order to database" |}, w') /\
    orders w' = orders Sample.w0 ++ [document Sample.E_no_twilio Sample.legacy_data Sample.w0].
Proof.
  apply (notification_error_is_reported_as_save_failure Sample.E_no_twilio
           Sample.legacy_body Sample.w0
           [{| name := "Atlas"; price := 5; quantity := QtyNum 1 |}] Sample.address
           "oid_0" "username is required").
  - repeat split. exists "09301680755". split; [reflexivity | discriminate].
  - split; reflexivity.
  - exact sample_chat_settles.
  - intros w0. reflexivity.
Defined.

(** Neither send succeeds for a value that is not a string. *)
Lemma sendMessage_non_string E p m w r w' :
  is_string p = false -> sendMessage E p m w = (Returns r, w') -> success r = false.
Proof.
  intros Hp. unfold sendMessage, bind, try_catch, emit. cbn -[waitForReady].
  set (w1 := {| orders := orders w; trace := trace w ++ [EvWhatsApp p m] |}).
  destruct (ServiceFacts.waitForReady_cases E w1) as (r0 & -> & _).
  destruct r0 as [ready|?|]; [|unfold ret; now intros [= <- _]|discriminate].
  unfold call, read, raise, ret. cbn.
  destruct (client E w1); cbn; [|now intros [= <- _]].
  destruct p; try discriminate Hp; now intros [= <- _].
Qed.

Lemma sendTextSMS_non_string E p m w r w' :
  is_string p = false -> sendTextSMS E p m w = (Returns r, w') -> success r = false.
Proof.
  intros Hp. unfold sendTextSMS, bind, try_catch, emit, call, raise, ret. cbn.
  destruct (twilio E _); [|discriminate|discriminate].
  destruct p; try discriminate Hp; now intros [= <- _].
Qed.

Lemma dispatch_without_phone E address items total paymentMethod paymentId w n w' :
  is_string (get address "phone") = false ->
  sendNotifications E address items total paymentMethod paymentId w = (Returns n, w') ->
  exists admin, n = [("admin", admin); ("customer", "Failed"); ("sms", "Failed")].
Proof.
  intros Hp. unfold sendNotifications, bind.
  destruct (sendMessage E (JStr "919301680755") _ w) as [[ra|?|] w1];
    [|discriminate|discriminate].
  destruct (sendMessage E (get address "phone") _ w1) as [[rc|?|] w2] eqn:Hc;
    [|discriminate|discriminate].
  destruct (sendTextSMS E (get address "phone") _ w2) as [[rs|?|] w3] eqn:Hs;
    [|discriminate|discriminate].
  unfold ret. intros [= <- _]. exists (sent_or_failed ra). unfold sent_or_failed.
  now rewrite (sendMessage_non_string _ _ _ _ _ _ Hp Hc),
              (sendTextSMS_non_string _ _ _ _ _ _ Hp Hs).
Qed.

(** X27: [verifyPayment] does not check the address fields: a genuine
    confirmation whose address has no string phone is stored and
    answered 200, with the customer and sms entries of the report
    'Failed'. *)
Theorem confirmation_does_not_check_the_phone
    E body w oid pid sig items address insertedId :
  given (Body.razorpay_order_id body) = Some oid ->
  given (Body.razorpay_payment_id body) = Some pid ->
  given (Body.razorpay_signature body) = Some sig ->
  Body.items body = Some items ->
  Body.address body = Some address ->
  truthy (Body.total body) = true ->
  signature_matches E oid pid sig = true ->
  is_string (get address "phone") = false ->
  responsive E ->
  inserts E (prepaid_order items address (Body.total body) oid pid) w insertedId ->
  exists admin w',
    verifyPayment E body w =
      (Returns {| http_status := 200;
                  json := JsonSaved "Payment verified and order saved successfully"
                            insertedId
                            [("admin", admin); ("customer", "Failed"); ("sms", "Failed")] |},
       w') /\
    orders w' =
      orders w ++ [document E (prepaid_order items address (Body.total body) oid pid) w].
Proof.
  intros Ho Hp Hs Hi Ha Ht Hm Hphone HE Hins.
  rewrite (verifyPayment_genuine E body oid pid sig items address Ho Hp Hs Hi Ha Ht Hm).
  unfold try_catch, bind.
  rewrite (saveOrderToDatabase_saved E _ w insertedId Hins).
  destruct (ServiceFacts.sendNotifications_resolves E address items (Body.total body)
              (JStr "prepaid") (JStr pid)
              (saved E (prepaid_order items address (Body.total body) oid pid) w) HE)
    as (n & w' & Hn).
  rewrite Hn.
  destruct (dispatch_without_phone _ _ _ _ _ _ _ _ _ Hphone Hn) as (admin & ->).
  exists admin, w'. split; [reflexivity|].
  destruct (Effects.quiet_step _ _ _ _
              (ServiceFacts.quiet_sendNotifications E address items (Body.total body)
                 (JStr "prepaid") (JStr pid)) Hn) as [Hord _].
  exact Hord.
Qed.

Lemma confirmation_does_not_check_the_phone_witness :
  exists admin w',
    verifyPayment Sample.E Scenario.confirm_without_phone Sample.w0 =
      (Returns {| http_status := 200;
                  json := JsonSaved "Payment verified and order saved successfully"
                            "oid_0"
                            [("admin", admin); ("customer", "Failed"); ("sms", "Failed")] |},
       w') /\
    orders w' =
      orders Sample.w0 ++
      [document Sample.E
         (prepaid_order Sample.two_books Scenario.address_without_phone (JNum 500)
            "order_1" "pay_1") Sample.w0].
Proof.
  apply (confirmation_does_not_check_the_phone Sample.E Scenario.confirm_without_phone
           Sample.w0 "order_1" "pay_1" Sample.genuine Sample.two_books
           Scenario.address_without_phone "oid_0"
           eq_refl eq_refl eq_refl eq_refl eq_refl eq_refl).
  - reflexivity.
  - reflexivity.
  - exact sample_responsive.
  - split; reflexivity.
Defined.

(** While the session is starting, [sendMessage] does not settle. *)
Lemma sendMessage_waits E p m w :
  isReady E 0 (attempted (EvWhatsApp p m) w) = false ->
  initializationPromise E (attempted (EvWhatsApp p m) w) = Pending ->
  sendMessage E p m w = (Pending, attempted (EvWhatsApp p m) w).
Proof.
  intros Hready Hinit.
  unfold sendMessage, waitForReady, bind, try_catch, emit, read, call.
  cbn -[poll_ready].
  change {| orders := orders w; trace := trace w ++ [EvWhatsApp p m] |}
    with (attempted (EvWhatsApp p m) w).
  now rewrite Hready, Hinit.
Qed.

(** X28: while the WhatsApp session is starting (not ready, its
    initialization promise unsettled), a valid cash-on-delivery order is
    stored and the admin send is begun, but [createOrder] gives no
    answer and no further send is made. *)
Theorem order_waits_for_the_session E body w items address insertedId :
  Body.items body = Some items ->
  Body.address body = Some address ->
  well_addressed address ->
  Body.paymentMethod body = JStr "cod" ->
  Body.total body = JNum (counted_sum items) ->
  truthy (Body.total body) = true ->
  inserts E (cod_order items address (JStr "cod") (JNum (counted_sum items))) w insertedId ->
  (forall w0, isReady E 0 w0 = false) ->
  (forall w0, initializationPromise E w0 = Pending) ->
  createOrder E body w =
    (Pending,
     attempted
       (EvWhatsApp (JStr "919301680755")
          (generateAdminMessage address items (JNum (counted_sum items)) (JStr "cod") JNull))
       (saved E (cod_order items address (JStr "cod") (JNum (counted_sum items))) w)).
Proof.
  intros Hi Ha Hw Hp Ht Hnz Hins Hready Hinit.
  rewrite (createOrder_cod E body items address Hi Ha Hw Hp Ht Hnz).
  unfold try_catch, bind.
  rewrite (saveOrderToDatabase_saved E _ w insertedId Hins).
  unfold sendNotifications, bind.
  now rewrite (sendMessage_waits E _ _ _ (Hready _) (Hinit _)).
Qed.

Lemma order_waits_for_the_session_witness :
  createOrder Scenario.E_starting Sample.cod_body Sample.w0 =
    (Pending,
     attempted
       (EvWhatsApp (JStr "919301680755")
          (generateAdminMessage Sample.address Sample.two_books (JNum 500) (JStr "cod")
             JNull))
       (saved Scenario.E_starting
          (cod_order Sample.two_books Sample.address (JStr "cod") (JNum 500)) Sample.w0)).
Proof.
  apply (order_waits_for_the_session Scenario.E_starting Sample.cod_body Sample.w0
           Sample.two_books Sample.address "oid_0"
           eq_refl eq_refl sample_well_addressed eq_refl eq_refl).
  - reflexivity.
  - split; reflexivity.
  - intros w0. reflexivity.
  - intros w0. reflexivity.
Defined.

End HandlerFacts.
